(** * Berlin housing scraper: orchestration, scheduling and persistence

    A shallow embedding of the two entry points of the repository,
    [main.py] (class [BerlinHousingApp]: web, worker, scheduler and once
    modes) and [run.py] (the command line tool with its own search cycle,
    HTML report and notification step), together with the properties the
    specification states about them.

    Python code is embedded as state passing over a [World] (environment
    variables, files, wall clock, the application's configuration and an
    event trace) in a monad whose computations either return a value or
    raise a Python exception.  Everything that is not code of the
    repository - the provider behind [ApartmentSearchInterface], the
    builtins [float] and [int], [strftime], file system faults, the
    notifier - lives in a [Platform] record that the theorems quantify
    over. *)

From Stdlib Require Import ZArith Ascii String List Lia PrimFloat.
From stdpp Require Import base option list gmap strings pretty.

Local Open Scope Z_scope.
Local Open Scope string_scope.

(** ** Python exceptions *)

Module Py.

(** The classes that occur in the two programs.  [KeyboardInterrupt] and
    [SystemExit] derive from [BaseException] only; every other class
    derives from [Exception]. *)
Inductive exn_class :=
  | KeyboardInterrupt
  | SystemExit
  | ValueError
  | KeyError
  | IndexError
  | TypeError
  | OSError
  | FileNotFoundError
  | JSONDecodeError
  | UnicodeDecodeError
  | FetchError
  | DeliveryError.

Record exn := Exn { exn_cls : exn_class; exn_msg : string }.

(** [isinstance(e, Exception)] *)
Definition is_Exception (e : exn) : bool :=
  match exn_cls e with
  | KeyboardInterrupt | SystemExit => false
  | _ => true
  end.

(** [isinstance(e, KeyboardInterrupt)] *)
Definition is_KeyboardInterrupt (e : exn) : bool :=
  match exn_cls e with
  | KeyboardInterrupt => true
  | _ => false
  end.

(** [isinstance(e, FileNotFoundError)] *)
Definition is_FileNotFoundError (e : exn) : bool :=
  match exn_cls e with
  | FileNotFoundError => true
  | _ => false
  end.

(** How a call ends. *)
Inductive outcome (A : Type) :=
  | Return (a : A)
  | Raised (e : exn).
Arguments Return {A} a.
Arguments Raised {A} e.

(** ** Python values held by a listing *)

(** The fields of a listing are scalars ([title], [district], [rooms],
    [area], [warm_rent], [available_from], [wbs_required], [wbs_type],
    [url]).  [PyObject] stands for any object [json.dump] cannot
    serialise. *)
Inductive pyval :=
  | PyNone
  | PyBool (b : bool)
  | PyInt (z : Z)
  | PyFloat (f : float)
  | PyStr (s : string)
  | PyObject (id : nat).

(** Truth value, as [if v:] computes it. *)
Definition truthy (v : pyval) : bool :=
  match v with
  | PyNone => false
  | PyBool b => b
  | PyInt z => negb (Z.eqb z 0)
  | PyFloat f => negb (PrimFloat.eqb f 0%float)
  | PyStr s => negb (String.eqb s "")
  | PyObject _ => true
  end.

Definition json_serializable (v : pyval) : bool :=
  match v with
  | PyObject _ => false
  | _ => true
  end.

(** ** String methods *)

Definition is_space (c : ascii) : bool :=
  let n := nat_of_ascii c in
  (Nat.leb 9 n && Nat.leb n 13) || (Nat.leb 28 n && Nat.leb n 32).

Fixpoint lstrip (s : string) : string :=
  match s with
  | String c r => if is_space c then lstrip r else s
  | EmptyString => EmptyString
  end.

(** [rstrip] keeps a character when it is not a blank or when something
    is left after it. *)
Fixpoint rstrip (s : string) : string :=
  match s with
  | String c r =>
      match rstrip r with
      | EmptyString => if is_space c then EmptyString else String c EmptyString
      | r' => String c r'
      end
  | EmptyString => EmptyString
  end.

(** [s.strip()] *)
Definition strip (s : string) : string := rstrip (lstrip s).

Definition lower_ascii (c : ascii) : ascii :=
  let n := nat_of_ascii c in
  if Nat.leb 65 n && Nat.leb n 90 then ascii_of_nat (n + 32)%nat else c.

(** [s.lower()], on the ASCII letters. *)
Fixpoint lower (s : string) : string :=
  match s with
  | String c r => String (lower_ascii c) (lower r)
  | EmptyString => EmptyString
  end.

(** [s.split(sep)] for a one character separator: the pieces between the
    separators, so that a string without separator gives one piece. *)
Fixpoint split_go (sep : ascii) (cur : string) (s : string) : list string :=
  match s with
  | EmptyString => [String.rev cur]
  | String c r =>
      if Ascii.eqb c sep then String.rev cur :: split_go sep EmptyString r
      else split_go sep (String c cur) r
  end.

Definition split (sep : ascii) (s : string) : list string :=
  split_go sep EmptyString s.

End Py.
Export Py.

(** ** Data of the programs *)

(** One apartment offer: the [dict] the search interface returns. *)
Abbreviation Listing := (gmap string pyval).

(** [apt.get(key, default)] *)
Definition dict_get (apt : Listing) (key : string) (default : pyval) : pyval :=
  match apt !! key with
  | Some v => v
  | None => default
  end.

(** The keyword arguments of [ApartmentSearchInterface.search_apartments]. *)
Record Criteria := {
  c_min_rooms : float;
  c_max_rooms : float;
  c_max_rent : float;
  c_min_area : option float;
  c_districts : list string;
  c_wbs : bool;
  c_companies : list string
}.

(** The dictionary [self.config] of [BerlinHousingApp]; its nine keys are
    set together by [load_config] and no key is ever added or removed. *)
Record Config := {
  max_rent : float;
  min_rooms : float;
  max_rooms : float;
  min_area : option float;
  districts : list string;
  wbs : bool;
  companies : list string;
  port : Z;
  mode : string
}.

(** [self.config['max_rent'] = v] and [self.config['min_rooms'] = v] *)
Definition set_max_rent (v : float) (c : Config) : Config :=
  {| max_rent := v; min_rooms := min_rooms c; max_rooms := max_rooms c;
     min_area := min_area c; districts := districts c; wbs := wbs c;
     companies := companies c; port := port c; mode := mode c |}.

Definition set_min_rooms (v : float) (c : Config) : Config :=
  {| max_rent := max_rent c; min_rooms := v; max_rooms := max_rooms c;
     min_area := min_area c; districts := districts c; wbs := wbs c;
     companies := companies c; port := port c; mode := mode c |}.

(** The arguments [search] builds from [self.config]. *)
Definition criteria_of (c : Config) : Criteria :=
  {| c_min_rooms := min_rooms c; c_max_rooms := max_rooms c;
     c_max_rent := max_rent c; c_min_area := min_area c;
     c_districts := districts c; c_wbs := wbs c;
     c_companies := companies c |}.

(** What a file holds.  A file written by [json.dump] is represented by
    the document [json.load] reads back from it; [FPartial] is a file
    that was opened for writing and not written to its end. *)
Inductive FileData :=
  | FJson (doc : list Listing)
  | FText (s : string)
  | FPartial.

Inductive LogLevel := INFO | ERROR.

(** What [run_once] prints. *)
Inductive PrintLine :=
  | PrFound (n : nat)
  | PrTopHeader
  | PrRule
  | PrApartment (i : nat) (apt : Listing)
  | PrStaticSite.

(** Observable events, recorded with the wall clock at which they occur. *)
Inductive Event :=
  | EvGetenv (key : string)
  | EvLog (level : LogLevel) (msg : string)
  | EvFetch (c : Criteria)
  | EvFetched (n : option nat)
  | EvWrite (path : string)
  | EvNotify (results : list Listing)
  | EvPrint (line : PrintLine)
  | EvSleep (seconds : Z).

(** ** The platform: everything outside the repository *)

Record Platform := {
  (** [float(s)] and [int(s)] on a string; [None] is [ValueError] *)
  py_float : string -> option float;
  py_int : string -> option Z;
  (** [str(v)], as an f-string renders a value *)
  py_str : pyval -> string;
  (** [format(v, spec)] for a non-empty format specification *)
  py_format_spec : string -> string -> outcome string;
  (** [datetime.now().strftime(fmt)] at a given wall clock *)
  strftime : string -> Z -> string;
  (** the n-th call of [interface.search_apartments]: how long it takes
      and how it ends *)
  provider : nat -> Criteria -> Z * outcome (list Listing);
  (** the n-th file system operation on a path: the error it raises *)
  io_fault : nat -> string -> option exn;
  (** what reading a UTF-8 document gives under the default text
      encoding of the platform *)
  default_decode : list Listing -> outcome (list Listing);
  (** the n-th call of [NotificationManager.notify] *)
  notifier : nat -> list Listing -> option exn;
  (** the n-th call of [time.sleep]: the seconds slept and the exception
      that interrupts it *)
  sleep_interrupt : nat -> Z -> option (Z * exn);
  (** how many jobs the [schedule] library finds due at the n-th call of
      [run_pending] *)
  jobs_due : nat -> nat
}.

(** ** The state of one process *)

Record World := {
  env : gmap string string;
  fs : gmap string FileData;
  clock : Z;
  trace : list (Z * Event);
  calls : nat;
  ios : nat;
  notifications : nat;
  sleeps : nat;
  polls : nat;
  app_config : Config
}.

Definition with_env (f : gmap string string -> gmap string string) (w : World) : World :=
  {| env := f (env w); fs := fs w; clock := clock w; trace := trace w;
     calls := calls w; ios := ios w; notifications := notifications w;
     sleeps := sleeps w; polls := polls w; app_config := app_config w |}.

Definition with_fs (f : gmap string FileData -> gmap string FileData) (w : World) : World :=
  {| env := env w; fs := f (fs w); clock := clock w; trace := trace w;
     calls := calls w; ios := ios w; notifications := notifications w;
     sleeps := sleeps w; polls := polls w; app_config := app_config w |}.

Definition with_clock (f : Z -> Z) (w : World) : World :=
  {| env := env w; fs := fs w; clock := f (clock w); trace := trace w;
     calls := calls w; ios := ios w; notifications := notifications w;
     sleeps := sleeps w; polls := polls w; app_config := app_config w |}.

Definition with_trace (f : list (Z * Event) -> list (Z * Event)) (w : World) : World :=
  {| env := env w; fs := fs w; clock := clock w; trace := f (trace w);
     calls := calls w; ios := ios w; notifications := notifications w;
     sleeps := sleeps w; polls := polls w; app_config := app_config w |}.

Definition with_calls (f : nat -> nat) (w : World) : World :=
  {| env := env w; fs := fs w; clock := clock w; trace := trace w;
     calls := f (calls w); ios := ios w; notifications := notifications w;
     sleeps := sleeps w; polls := polls w; app_config := app_config w |}.

Definition with_ios (f : nat -> nat) (w : World) : World :=
  {| env := env w; fs := fs w; clock := clock w; trace := trace w;
     calls := calls w; ios := f (ios w); notifications := notifications w;
     sleeps := sleeps w; polls := polls w; app_config := app_config w |}.

Definition with_notifications (f : nat -> nat) (w : World) : World :=
  {| env := env w; fs := fs w; clock := clock w; trace := trace w;
     calls := calls w; ios := ios w; notifications := f (notifications w);
     sleeps := sleeps w; polls := polls w; app_config := app_config w |}.

Definition with_sleeps (f : nat -> nat) (w : World) : World :=
  {| env := env w; fs := fs w; clock := clock w; trace := trace w;
     calls := calls w; ios := ios w; notifications := notifications w;
     sleeps := f (sleeps w); polls := polls w; app_config := app_config w |}.

Definition with_polls (f : nat -> nat) (w : World) : World :=
  {| env := env w; fs := fs w; clock := clock w; trace := trace w;
     calls := calls w; ios := ios w; notifications := notifications w;
     sleeps := sleeps w; polls := f (polls w); app_config := app_config w |}.

Definition with_config (f : Config -> Config) (w : World) : World :=
  {| env := env w; fs := fs w; clock := clock w; trace := trace w;
     calls := calls w; ios := ios w; notifications := notifications w;
     sleeps := sleeps w; polls := polls w; app_config := f (app_config w) |}.

(** ** The monad of Python statements *)

(** A statement runs in a world and either returns or raises; the changes
    it made before raising stay. *)
Definition M (A : Type) : Type := World -> outcome A * World.

Definition ret {A} (a : A) : M A := fun w => (Return a, w).

Definition bind {A B} (m : M A) (k : A -> M B) : M B :=
  fun w =>
    match m w with
    | (Return a, w') => k a w'
    | (Raised e, w') => (Raised e, w')
    end.

Definition raise {A} (e : exn) : M A := fun w => (Raised e, w).

Definition modify (f : World -> World) : M unit := fun w => (Return tt, f w).

Definition gets {A} (f : World -> A) : M A := fun w => (Return (f w), w).

(** [try: body  except <classes>: handler] *)
Definition try_except {A} (body : M A) (catches : exn -> bool)
    (handler : exn -> M A) : M A :=
  fun w =>
    match body w with
    | (Return a, w') => (Return a, w')
    | (Raised e, w') => if catches e then handler e w' else (Raised e, w')
    end.

(** [try: body  except <c1>: h1  except <c2>: h2]: the first clause
    that matches handles the exception. *)
Definition try_except2 {A} (body : M A) (c1 : exn -> bool) (h1 : exn -> M A)
    (c2 : exn -> bool) (h2 : exn -> M A) : M A :=
  fun w =>
    match body w with
    | (Return a, w') => (Return a, w')
    | (Raised e, w') =>
        if c1 e then h1 e w'
        else if c2 e then h2 e w'
        else (Raised e, w')
    end.

Notation "x <- m ;; k" := (bind m (fun x => k))
  (at level 100, m at next level, right associativity).
Notation "m ;;; k" := (bind m (fun _ => k))
  (at level 100, right associativity).

(** How a loop that never ends by itself is observed: it either left the
    loop or is still running when the observation stops. *)
Inductive LoopEnd := Stopped | StillRunning.

(** The requests the web server routes. *)
Inductive Request :=
  | ReqIndex
  | ReqHealth
  | ReqSearch (args : gmap string string)
  | ReqLatest.

(** ** Primitive statements *)

Module Runtime.
Section Primitives.

Variable P : Platform.

Definition emit (e : Event) : M unit :=
  modify (fun w => with_trace (cons (clock w, e)) w).

Definition log (level : LogLevel) (msg : string) : M unit :=
  emit (EvLog level msg).

Definition print (line : PrintLine) : M unit := emit (EvPrint line).

(** [os.getenv(key)] *)
Definition getenv (key : string) : M (option string) :=
  emit (EvGetenv key) ;;; gets (fun w => env w !! key).

(** [os.getenv(key, default)] *)
Definition getenv_default (key default : string) : M string :=
  v <- getenv key ;; ret (match v with Some s => s | None => default end).

(** [os.environ[key] = value] *)
Definition setenv (key value : string) : M unit :=
  modify (with_env (insert key value)).

(** [float(s)] and [int(s)] *)
Definition to_float (s : string) : M float :=
  match py_float P s with
  | Some f => ret f
  | None => raise (Exn ValueError "could not convert string to float")
  end.

Definition to_int (s : string) : M Z :=
  match py_int P s with
  | Some z => ret z
  | None => raise (Exn ValueError "invalid literal for int()")
  end.

(** [datetime.now().strftime(fmt)] *)
Definition timestamp (fmt : string) : M string :=
  gets (fun w => strftime P fmt (clock w)).

(** [interface.search_apartments(...)] in two halves: the call is made
    and gets its number; later the call takes its time and returns the
    listings or raises. *)
Definition fetch_call (c : Criteria) : M nat :=
  emit (EvFetch c) ;;;
  n <- gets calls ;;
  modify (with_calls S) ;;;
  ret n.

Definition fetch_return (n : nat) (c : Criteria) : M (list Listing) :=
  modify (with_clock (Z.add (fst (provider P n c)))) ;;;
  match snd (provider P n c) with
  | Return rs => emit (EvFetched (Some (length rs))) ;;; ret rs
  | Raised e => emit (EvFetched None) ;;; raise e
  end.

Definition fetch (c : Criteria) : M (list Listing) :=
  n <- fetch_call c ;;
  fetch_return n c.

(** One file system operation: it fails when the platform says so. *)
Definition io_op (path : string) : M unit :=
  n <- gets ios ;;
  modify (with_ios S) ;;;
  match io_fault P n path with
  | Some e => raise e
  | None => ret tt
  end.

(** [os.makedirs(path, exist_ok=True)] *)
Definition makedirs (path : string) : M unit := io_op path.

Definition listing_serializable (apt : Listing) : bool :=
  forallb (fun kv => json_serializable (snd kv)) (map_to_list apt).

(** [with open(path, 'w', encoding='utf-8') as f: json.dump(results, f, ...)].
    When [open] fails the file is untouched; when a value cannot be
    serialised the file is left unfinished and [TypeError] is raised. *)
Definition dump_json (path : string) (results : list Listing) : M unit :=
  io_op path ;;;
  emit (EvWrite path) ;;;
  if forallb listing_serializable results
  then modify (with_fs (insert path (FJson results)))
  else modify (with_fs (insert path FPartial)) ;;;
       raise (Exn TypeError "Object is not JSON serializable").

(** [with open(path, 'w', encoding='utf-8') as f: f.write(text)] *)
Definition write_text (path text : string) : M unit :=
  io_op path ;;;
  emit (EvWrite path) ;;;
  modify (with_fs (insert path (FText text))).

(** [with open(path, 'r') as f: json.load(f)]: no encoding is given, the
    platform's default decodes the file. *)
Definition load_json (path : string) : M (list Listing) :=
  io_op path ;;;
  f <- gets (fun w => fs w !! path) ;;
  match f with
  | None => raise (Exn FileNotFoundError path)
  | Some (FJson doc) =>
      match default_decode P doc with
      | Return d => ret d
      | Raised e => raise e
      end
  | Some _ => raise (Exn JSONDecodeError path)
  end.

(** [time.sleep(seconds)] *)
Definition sleep (seconds : Z) : M unit :=
  emit (EvSleep seconds) ;;;
  n <- gets sleeps ;;
  modify (with_sleeps S) ;;;
  match sleep_interrupt P n seconds with
  | None => modify (with_clock (Z.add seconds))
  | Some (t, e) => modify (with_clock (Z.add t)) ;;; raise e
  end.

(** [NotificationManager().notify(results)] *)
Definition notify (results : list Listing) : M unit :=
  emit (EvNotify results) ;;;
  n <- gets notifications ;;
  modify (with_notifications S) ;;;
  match notifier P n results with
  | Some e => raise e
  | None => ret tt
  end.

(** [m] run [n] times in a row; an exception ends the row. *)
Fixpoint repeat_m (n : nat) (m : M unit) : M unit :=
  match n with
  | O => ret tt
  | S n' => m ;;; repeat_m n' m
  end.

(** [schedule.run_pending()] when the same job function is registered
    for [jobs] triggers: the library runs the job once per trigger that
    is due, one run after the other. *)
Definition run_pending (jobs : nat) (job : M unit) : M unit :=
  k <- gets polls ;;
  modify (with_polls S) ;;;
  repeat_m (Nat.min (jobs_due P k) jobs) job.

End Primitives.
End Runtime.
Export Runtime.

(** ** main.py: class BerlinHousingApp *)

Module MainPy.
Section App.

Variable P : Platform.

(** [load_config]: builds [self.config] from the environment. *)
Definition load_config : M unit :=
  s_rent <- getenv_default "MAX_RENT" "1200" ;;
  v_max_rent <- to_float P s_rent ;;
  s_min <- getenv_default "MIN_ROOMS" "2" ;;
  v_min_rooms <- to_float P s_min ;;
  s_max <- getenv_default "MAX_ROOMS" "3" ;;
  v_max_rooms <- to_float P s_max ;;
  area_set <- getenv "MIN_AREA" ;;
  v_min_area <-
    (match area_set with
     | Some (String _ _) =>
         s_area <- getenv_default "MIN_AREA" "0" ;;
         a <- to_float P s_area ;;
         ret (Some a)
     | _ => ret None
     end) ;;
  s_districts <- getenv_default "DISTRICTS" "Mitte,Friedrichshain" ;;
  s_wbs <- getenv_default "WBS_REQUIRED" "false" ;;
  s_companies <- getenv_default "COMPANIES" "inberlinwohnen" ;;
  s_port <- getenv_default "PORT" "8080" ;;
  v_port <- to_int P s_port ;;
  v_mode <- getenv_default "MODE" "web" ;;
  modify (with_config (fun _ =>
    {| max_rent := v_max_rent; min_rooms := v_min_rooms;
       max_rooms := v_max_rooms; min_area := v_min_area;
       districts := split "," s_districts;
       wbs := String.eqb (lower s_wbs) "true";
       companies := split "," s_companies;
       port := v_port; mode := v_mode |})) ;;;
  log INFO "Configuration loaded".

(** [__init__]; constructing the interface has no effect of its own. *)
Definition init : M unit := load_config.

(** [save_results] *)
Definition save_results (results : list Listing) : M unit :=
  makedirs P "results" ;;;
  ts <- timestamp P "%Y%m%d_%H%M%S" ;;
  let filename := "results/apartments_" ++ ts ++ ".json" in
  dump_json P filename results ;;;
  log INFO "Results saved" ;;;
  dump_json P "results/latest.json" results.

(** [search]: the body of the [try], its [except] clause and the whole
    method. *)
Definition search_body : M (list Listing) :=
  cfg <- gets app_config ;;
  results <- fetch P (criteria_of cfg) ;;
  log INFO "Found apartments" ;;;
  save_results results ;;;
  ret results.

Definition search_failed (e : exn) : M (list Listing) :=
  log ERROR "Error during search" ;;; ret [].

Definition search : M (list Listing) :=
  log INFO "Starting apartment search..." ;;;
  try_except search_body is_Exception search_failed.

(** [request.args.get(key, default, type=float)] *)
Definition arg_float (args : gmap string string) (key : string)
    (default : float) : float :=
  match args !! key with
  | Some s => match py_float P s with Some f => f | None => default end
  | None => default
  end.

(** [api_search], with the query string of the request. *)
Definition api_search (args : gmap string string) : M (list Listing) :=
  cfg <- gets app_config ;;
  let v_max_rent := arg_float args "max_rent" (max_rent cfg) in
  cfg' <- gets app_config ;;
  let v_min_rooms := arg_float args "min_rooms" (min_rooms cfg') in
  original_config <- gets app_config ;;
  modify (with_config (set_max_rent v_max_rent)) ;;;
  modify (with_config (set_min_rooms v_min_rooms)) ;;;
  results <- search ;;
  modify (with_config (fun _ => original_config)) ;;;
  ret results.

(** [api_latest] *)
Definition api_latest : M (list Listing) :=
  try_except (load_json P "results/latest.json") is_FileNotFoundError
    (fun _ => ret []).

(** One pass of the [while True] of [run_worker]: [true] when the loop
    goes on, [false] after [break]. *)
Definition worker_pass : M bool :=
  try_except2
    (search ;;; sleep P 7200 ;;; ret true)
    is_KeyboardInterrupt
    (fun _ => log INFO "Worker stopped" ;;; ret false)
    is_Exception
    (fun e => log ERROR "Worker error" ;;; sleep P 300 ;;; ret true).

(** [run_worker], observed for [passes] passes of its loop. *)
Fixpoint worker_loop (passes : nat) : M LoopEnd :=
  match passes with
  | O => ret StillRunning
  | S n =>
      go_on <- worker_pass ;;
      if go_on : bool then worker_loop n else ret Stopped
  end.

Definition run_worker (passes : nat) : M LoopEnd :=
  log INFO "Starting worker mode..." ;;;
  worker_loop passes.

(** One pass of the loop of [run_scheduler]; four triggers are
    registered: every two hours, and daily at 09:00, 15:00 and 21:00. *)
Definition scheduler_pass : M bool :=
  try_except
    (run_pending P 4 (search ;;; ret tt) ;;; sleep P 60 ;;; ret true)
    is_KeyboardInterrupt
    (fun _ => log INFO "Scheduler stopped" ;;; ret false).

Fixpoint scheduler_loop (passes : nat) : M LoopEnd :=
  match passes with
  | O => ret StillRunning
  | S n =>
      go_on <- scheduler_pass ;;
      if go_on : bool then scheduler_loop n else ret Stopped
  end.

Definition run_scheduler (passes : nat) : M LoopEnd :=
  log INFO "Starting scheduler mode..." ;;;
  log INFO "Scheduler configured" ;;;
  scheduler_loop passes.

(** [for i, apt in enumerate(results[:5], 1): print(...)] *)
Fixpoint print_top (i : nat) (apts : list Listing) : M unit :=
  match apts with
  | [] => ret tt
  | apt :: rest => print (PrApartment i apt) ;;; print_top (S i) rest
  end.

(** [run_once] *)
Definition run_once : M unit :=
  log INFO "Running single search..." ;;;
  results <- search ;;
  print (PrFound (length results)) ;;;
  match results with
  | [] => ret tt
  | _ =>
      print PrTopHeader ;;;
      print PrRule ;;;
      print_top 1 (take 5 results)
  end.

(** One request served by the routes of [run_web]. *)
Definition serve (r : Request) : M unit :=
  match r with
  | ReqIndex => ret tt
  | ReqHealth => ret tt
  | ReqSearch args => api_search args ;;; ret tt
  | ReqLatest => api_latest ;;; ret tt
  end.

(** [run_web] serving a sequence of requests one after the other (the
    threads of the server are the subject of module [Web] below); an
    exception in a route is answered by the server with an error page
    and does not end the server. *)
Fixpoint serve_all (rs : list Request) : M unit :=
  match rs with
  | [] => ret tt
  | r :: rest =>
      try_except (serve r) is_Exception (fun _ => ret tt) ;;;
      serve_all rest
  end.

Definition run_web (requests : list Request) : M LoopEnd :=
  log INFO "Starting web server" ;;;
  serve_all requests ;;;
  ret StillRunning.

(** [run(mode)] with [mode = mode or self.config['mode']]. *)
Definition run (arg_mode : option string) (requests : list Request)
    (passes : nat) : M LoopEnd :=
  cfg <- gets app_config ;;
  let m := match arg_mode with
           | Some (String a b) => String a b
           | _ => mode cfg
           end in
  log INFO "Starting Berlin Housing Scraper" ;;;
  if String.eqb m "web" then run_web requests
  else if String.eqb m "worker" then run_worker passes
  else if String.eqb m "scheduler" then run_scheduler passes
  else if String.eqb m "once" then run_once ;;; ret Stopped
  else run_web requests.

Definition mode_choices : list string := ["web"; "worker"; "scheduler"; "once"].

(** [main()], with the values of [--mode] and [--port] when they are
    given on the command line. *)
Definition main (arg_mode : option string) (arg_port : option Z)
    (requests : list Request) (passes : nat) : M LoopEnd :=
  env_mode <- getenv_default "MODE" "web" ;;
  s_port <- getenv_default "PORT" "8080" ;;
  env_port <- to_int P s_port ;;
  (match arg_mode with
   | Some m =>
       if existsb (String.eqb m) mode_choices then ret tt
       else raise (Exn SystemExit "argument --mode: invalid choice")
   | None => ret tt
   end) ;;;
  let v_mode := match arg_mode with Some m => m | None => env_mode end in
  let v_port := match arg_port with Some p => p | None => env_port end in
  setenv "PORT" (py_str P (PyInt v_port)) ;;;
  init ;;;
  run (Some v_mode) requests passes.

End App.
End MainPy.

(** ** The web server with one thread per request *)

(** [app.run] of Flask serves every request in a thread of its own, so
    the statements of two calls of [api_search] interleave.  A handler is
    cut at its statements; the call of [self.search()] is cut where the
    provider is entered and where it comes back. *)
Module Web.

Inductive pc :=
  | AtMaxRent
  | AtMinRooms (v_max_rent : float)
  | AtCopy (v_max_rent v_min_rooms : float)
  | AtSetMaxRent (original_config : Config) (v_max_rent v_min_rooms : float)
  | AtSetMinRooms (original_config : Config) (v_min_rooms : float)
  | AtSearch (original_config : Config)
  | InProvider (original_config : Config) (n : nat) (c : Criteria)
  | AtRestore (original_config : Config) (results : list Listing)
  | Finished (response : outcome (list Listing)).

Record Thread := { th_args : gmap string string; th_pc : pc }.

Definition at_pc (t : Thread) (p : pc) : Thread :=
  {| th_args := th_args t; th_pc := p |}.

Definition new_thread (args : gmap string string) : Thread :=
  {| th_args := args; th_pc := AtMaxRent |}.

Definition in_provider (t : Thread) : bool :=
  match th_pc t with
  | InProvider _ _ _ => true
  | _ => false
  end.

Definition finished (t : Thread) : bool :=
  match th_pc t with
  | Finished _ => true
  | _ => false
  end.

(** The number of search cycles in flight. *)
Definition in_flight (ts : list Thread) : nat :=
  length (filter (fun t => in_provider t = true) ts).

Section Server.

Variable P : Platform.

(** What [search] does once the provider has answered. *)
Definition search_resume (n : nat) (c : Criteria) : M (list Listing) :=
  try_except
    (results <- fetch_return P n c ;;
     log INFO "Found apartments" ;;;
     MainPy.save_results P results ;;;
     ret results)
    is_Exception (MainPy.search_failed).

(** The next statement of a handler. *)
Definition thread_step (t : Thread) (w : World) : Thread * World :=
  match th_pc t with
  | AtMaxRent =>
      (at_pc t (AtMinRooms (MainPy.arg_float P (th_args t) "max_rent" (max_rent (app_config w)))), w)
  | AtMinRooms r =>
      (at_pc t (AtCopy r (MainPy.arg_float P (th_args t) "min_rooms" (min_rooms (app_config w)))), w)
  | AtCopy r m =>
      (at_pc t (AtSetMaxRent (app_config w) r m), w)
  | AtSetMaxRent orig r m =>
      (at_pc t (AtSetMinRooms orig m), with_config (set_max_rent r) w)
  | AtSetMinRooms orig m =>
      (at_pc t (AtSearch orig), with_config (set_min_rooms m) w)
  | AtSearch orig =>
      match (log INFO "Starting apartment search..." ;;;
             cfg <- gets app_config ;;
             n <- fetch_call (criteria_of cfg) ;;
             ret (n, criteria_of cfg)) w with
      | (Return (n, c), w') => (at_pc t (InProvider orig n c), w')
      | (Raised e, w') => (at_pc t (Finished (Raised e)), w')
      end
  | InProvider orig n c =>
      match search_resume n c w with
      | (Return results, w') => (at_pc t (AtRestore orig results), w')
      | (Raised e, w') => (at_pc t (Finished (Raised e)), w')
      end
  | AtRestore orig results =>
      (at_pc t (Finished (Return results)), with_config (fun _ => orig) w)
  | Finished r => (t, w)
  end.

(** The server: a request arrives and gets its thread, or one of the
    threads executes its next statement. *)
Inductive step : World * list Thread -> World * list Thread -> Prop :=
  | step_accept w ts args :
      step (w, ts) (w, (ts ++ [new_thread args])%list)
  | step_thread w ts i t :
      ts !! i = Some t ->
      finished t = false ->
      step (w, ts) (snd (thread_step t w), <[i := fst (thread_step t w)]> ts).

Inductive reachable (s0 : World * list Thread) : World * list Thread -> Prop :=
  | reach_refl : reachable s0 s0
  | reach_step s s' : reachable s0 s -> step s s' -> reachable s0 s'.

(** A handler run alone from its first statement to its last. *)
Fixpoint run_thread (fuel : nat) (t : Thread) (w : World) : Thread * World :=
  match fuel with
  | O => (t, w)
  | S n => let '(t', w') := thread_step t w in run_thread n t' w'
  end.

(** What the server is made to do next: accept a request, or let the
    thread with a given number execute its next statement. *)
Inductive Action :=
  | Accept (args : gmap string string)
  | Run (i : nat).

Definition act (a : Action) (s : World * list Thread) : World * list Thread :=
  match a with
  | Accept args => (fst s, (snd s ++ [new_thread args])%list)
  | Run i =>
      match snd s !! i with
      | Some t =>
          if finished t then s
          else (snd (thread_step t (fst s)), <[i := fst (thread_step t (fst s))]> (snd s))
      | None => s
      end
  end.

(** A schedule played from a state, first action first. *)
Definition play (schedule : list Action) (s : World * list Thread)
    : World * list Thread :=
  fold_left (fun st a => act a st) schedule s.

End Server.
End Web.

(** The completion status of a process whose main function ended with
    [r]: zero when it returned, non-zero when an exception ended it. *)
Definition exit_status {A} (r : outcome A) : Z :=
  match r with
  | Return _ => 0
  | Raised _ => 1
  end.

(** ** str.format *)

Module Format.

(** Where the scanner of [str.format] is: in literal text, just after an
    opening or a closing brace, or inside a replacement field at some
    nesting depth, with the characters of the field read so far (last
    one first). *)
Inductive scan :=
  | InText
  | AfterOpen
  | AfterClose
  | InField (depth : nat) (acc : string).

Definition open_brace : ascii := "{"%char.
Definition close_brace : ascii := "}"%char.

(** The part of [s] before the first character that satisfies [stop],
    and the part from that character on. *)
Fixpoint break_at (stop : ascii -> bool) (s : string) : string * string :=
  match s with
  | EmptyString => (EmptyString, EmptyString)
  | String c r =>
      if stop c then (EmptyString, s)
      else let '(a, b) := break_at stop r in (String c a, b)
  end.

Fixpoint all_digits (s : string) : bool :=
  match s with
  | EmptyString => true
  | String c r =>
      (Nat.leb 48 (nat_of_ascii c) && Nat.leb (nat_of_ascii c) 57) && all_digits r
  end.

Fixpoint contains (c : ascii) (s : string) : bool :=
  match s with
  | EmptyString => false
  | String d r => Ascii.eqb c d || contains c r
  end.

Fixpoint lookup_kw (kw : list (string * pyval)) (name : string) : option pyval :=
  match kw with
  | [] => None
  | (k, v) :: rest => if String.eqb k name then Some v else lookup_kw rest name
  end.

Section WithPlatform.

Variable P : Platform.

(** One replacement field [{field}] of a call that passes keyword
    arguments only.  The field name runs up to the conversion [!] or the
    specification [:]; its first part, up to [.] or [[], is the argument
    name.  An empty or numeric name asks for a positional argument, and
    there is none; any other name is looked up among the keywords. *)
Definition format_field (kw : list (string * pyval)) (field : string) : outcome string :=
  let '(name, rest) :=
    break_at (fun c => Ascii.eqb c "!"%char || Ascii.eqb c ":"%char) field in
  let '(head, accessors) :=
    break_at (fun c => Ascii.eqb c "."%char || Ascii.eqb c "["%char) name in
  if contains open_brace name
  then Raised (Exn ValueError "unexpected '{' in field name")
  else if all_digits head
  then Raised (Exn IndexError "Replacement index out of range for positional args tuple")
  else
    match lookup_kw kw head with
    | None => Raised (Exn KeyError head)
    | Some v =>
        match accessors ++ rest with
        | EmptyString => Return (py_str P v)
        | more => py_format_spec P (py_str P v) more
        end
    end.

(** [template.format] applied to the keyword arguments [kw]: [out] is
    the text produced so far, last character first. *)
Fixpoint format_go (kw : list (string * pyval)) (st : scan) (out : string)
    (s : string) : outcome string :=
  match s with
  | EmptyString =>
      match st with
      | InText => Return (String.rev out)
      | AfterOpen => Raised (Exn ValueError "Single '{' encountered in format string")
      | AfterClose => Raised (Exn ValueError "Single '}' encountered in format string")
      | InField _ _ => Raised (Exn ValueError "expected '}' before end of string")
      end
  | String c r =>
      match st with
      | InText =>
          if Ascii.eqb c open_brace then format_go kw AfterOpen out r
          else if Ascii.eqb c close_brace then format_go kw AfterClose out r
          else format_go kw InText (String c out) r
      | AfterOpen =>
          if Ascii.eqb c open_brace then format_go kw InText (String c out) r
          else if Ascii.eqb c close_brace then
            match format_field kw EmptyString with
            | Return t => format_go kw InText (String.rev t ++ out) r
            | Raised e => Raised e
            end
          else format_go kw (InField 0 (String c EmptyString)) out r
      | AfterClose =>
          if Ascii.eqb c close_brace then format_go kw InText (String c out) r
          else Raised (Exn ValueError "Single '}' encountered in format string")
      | InField depth acc =>
          if Ascii.eqb c open_brace then format_go kw (InField (S depth) (String c acc)) out r
          else if Ascii.eqb c close_brace then
            match depth with
            | O =>
                match format_field kw (String.rev acc) with
                | Return t => format_go kw InText (String.rev t ++ out) r
                | Raised e => Raised e
                end
            | S d => format_go kw (InField d (String c acc)) out r
            end
          else format_go kw (InField depth (String c acc)) out r
      end
  end.

Definition py_format (template : string) (kw : list (string * pyval)) : outcome string :=
  format_go kw InText EmptyString template.

End WithPlatform.
End Format.

(** ** run.py: the command line tool *)

Module RunPy.

Definition dq : string := String "034"%char EmptyString.

(** The text of the report template, as [generate_html_report] holds it
    before calling [format]. *)
Definition html_template : string :=
  "
<!DOCTYPE html>
<html lang=" ++ dq ++
  "de" ++ dq ++
  ">
<head>
    <meta charset=" ++ dq ++
  "UTF-8" ++ dq ++
  ">
    <meta name=" ++ dq ++
  "viewport" ++ dq ++
  " content=" ++ dq ++
  "width=device-width, initial-scale=1.0" ++ dq ++
  ">
    <title>Berlin Apartment Search Results</title>
    <style>
        body { font-family: Arial, sans-serif; margin: 20px; background: #f5f5f5; }
        h1 { color: #333; }
        .stats { background: white; padding: 15px; margin: 20px 0; border-radius: 8px; }
        .apartment { background: white; margin: 10px 0; padding: 15px; border-radius: 8px; box-shadow: 0 2px 4px rgba(0,0,0,0.1); }
        .apartment:hover { box-shadow: 0 4px 8px rgba(0,0,0,0.15); }
        .title { font-size: 18px; font-weight: bold; color: #2c3e50; margin-bottom: 10px; }
        .details { display: grid; grid-template-columns: repeat(auto-fit, minmax(200px, 1fr)); gap: 10px; }
        .detail { color: #666; }
        .price { color: #e74c3c; font-weight: bold; }
        .wbs { background: #3498db; color: white; padding: 2px 8px; border-radius: 4px; display: inline-block; }
        .available { color: #27ae60; }
        .link { margin-top: 10px; }
        .link a { color: #3498db; text-decoration: none; }
        .link a:hover { text-decoration: underline; }
        .filters { background: white; padding: 15px; margin: 20px 0; border-radius: 8px; }
        .timestamp { color: #999; font-size: 12px; }
    </style>
</head>
<body>
    <h1>🏠 Berlin Apartment Search Results</h1>
    <div class=" ++ dq ++
  "stats" ++ dq ++
  ">
        <strong>Found: {count} apartments</strong> | 
        <span class=" ++ dq ++
  "timestamp" ++ dq ++
  ">Generated: {timestamp}</span>
    </div>
    
    {apartments_html}
    
    <script>
        // Add filtering functionality
        function filterApartments() {{
            // Implementation here
        }}
    </script>
</body>
</html>
".

(** [SearchParameters], as [load_search_params] fills it. *)
Record SearchParameters := {
  sp_min_rooms : float;
  sp_max_rooms : float;
  sp_max_rent : float;
  sp_min_area : option float;
  sp_districts : list string;
  sp_wbs_required : bool;
  sp_wbs_type : option string;
  sp_companies : list string
}.

(** The keyword arguments [search_apartments] passes to the interface. *)
Definition criteria_of_params (p : SearchParameters) : Criteria :=
  {| c_min_rooms := sp_min_rooms p; c_max_rooms := sp_max_rooms p;
     c_max_rent := sp_max_rent p; c_min_area := sp_min_area p;
     c_districts := sp_districts p; c_wbs := sp_wbs_required p;
     c_companies := sp_companies p |}.

Inductive Action := ActSearch | ActSchedule | ActWeb | ActGenerateStatic.

(** [len(range(start, stop, step))]; [None] when the step is zero. *)
Definition range_len (start stop step : Z) : option nat :=
  if Z.eqb step 0 then None
  else if Z.ltb 0 step then
    Some (Z.to_nat ((stop - start + step - 1) / step))
  else
    Some (Z.to_nat ((start - stop - step - 1) / (- step))).

(** The hours [range(start, stop, step)] runs through. *)
Definition range_hours (start step : Z) (n : nat) : list Z :=
  map (fun i => start + Z.of_nat i * step) (seq 0 n).

Section Tool.

Variable P : Platform.

(** [float(os.getenv(key, default))] with a numeric default. *)
Definition getenv_float (key : string) (default : float) : M float :=
  v <- getenv key ;;
  match v with
  | Some s => to_float P s
  | None => ret default
  end.

(** [int(os.getenv(key, default))] with a numeric default. *)
Definition getenv_int (key : string) (default : Z) : M Z :=
  v <- getenv key ;;
  match v with
  | Some s => to_int P s
  | None => ret default
  end.

(** [load_search_params] *)
Definition load_search_params : M SearchParameters :=
  s_districts <- getenv_default "DISTRICTS" "Mitte,Friedrichshain" ;;
  s_companies <- getenv_default "COMPANIES" "inberlinwohnen" ;;
  v_min_rooms <- getenv_float "MIN_ROOMS" 2%float ;;
  v_max_rooms <- getenv_float "MAX_ROOMS" 3%float ;;
  v_max_rent <- getenv_float "MAX_RENT" 1200%float ;;
  area_set <- getenv "MIN_AREA" ;;
  v_min_area <-
    (match area_set with
     | Some (String _ _) =>
         a <- getenv_float "MIN_AREA" 0%float ;;
         ret (Some a)
     | _ => ret None
     end) ;;
  s_wbs <- getenv_default "WBS_REQUIRED" "false" ;;
  v_wbs_type <- getenv "WBS_TYPE" ;;
  ret {| sp_min_rooms := v_min_rooms; sp_max_rooms := v_max_rooms;
         sp_max_rent := v_max_rent; sp_min_area := v_min_area;
         sp_districts := map strip (split "," s_districts);
         sp_wbs_required := String.eqb (lower s_wbs) "true";
         sp_wbs_type := v_wbs_type;
         sp_companies := map strip (split "," s_companies) |}.

(** [apt.get(key, default)] rendered inside an f-string. *)
Definition field (apt : Listing) (key : string) (default : pyval) : string :=
  py_str P (dict_get apt key default).

Definition wbs_badge (apt : Listing) : string :=
  if truthy (dict_get apt "wbs_required" PyNone)
  then "<span class=" ++ dq ++ "wbs" ++ dq ++ ">WBS " ++
       field apt "wbs_type" (PyStr "") ++ "</span>"
  else "".

(** The block the loop of [generate_html_report] adds for one apartment. *)
Definition apartment_html (apt : Listing) : string :=
  "
        <div class=" ++ dq ++ "apartment" ++ dq ++ ">
            <div class=" ++ dq ++ "title" ++ dq ++ ">" ++
  field apt "title" (PyStr "No title") ++
  "</div>
            <div class=" ++ dq ++ "details" ++ dq ++ ">
                <div class=" ++ dq ++ "detail" ++ dq ++ ">📍 " ++
  field apt "district" (PyStr "Unknown") ++
  "</div>
                <div class=" ++ dq ++ "detail" ++ dq ++ ">🏠 " ++
  field apt "rooms" (PyInt 0) ++
  " Zimmer, " ++
  field apt "area" (PyInt 0) ++
  " m²</div>
                <div class=" ++ dq ++ "detail price" ++ dq ++ ">💰 " ++
  field apt "warm_rent" (PyInt 0) ++
  "€ warm</div>
                <div class=" ++ dq ++ "detail available" ++ dq ++ ">📅 " ++
  field apt "available_from" (PyStr "sofort") ++
  "</div>
            </div>
            <div>" ++
  wbs_badge apt ++
  "</div>
            <div class=" ++ dq ++ "link" ++ dq ++ ">
                <a href=" ++ dq ++ "" ++
  field apt "url" (PyStr "#") ++
  "" ++ dq ++ " target=" ++ dq ++ "_blank" ++ dq ++ ">View Listing →</a>
            </div>
        </div>
        ".

(** [generate_html_report] *)
Definition generate_html_report (apartments : list Listing) : M string :=
  let apartments_html :=
    fold_left (fun acc apt => acc ++ apartment_html apt) apartments "" in
  ts <- timestamp P "%Y-%m-%d %H:%M:%S" ;;
  match Format.py_format P html_template
          [("count", PyInt (Z.of_nat (length apartments)));
           ("timestamp", PyStr ts);
           ("apartments_html", PyStr apartments_html)] with
  | Return text => ret text
  | Raised e => raise e
  end.

(** What the search cycle does with the results of the provider: save
    the JSON file, save the HTML report, send the notifications.  The
    report step is a parameter. *)
Definition persist_and_notify (report : list Listing -> M string)
    (notify_flag : bool) (results : list Listing) : M (list Listing) :=
  log INFO "Found apartments" ;;;
  ts <- timestamp P "%Y%m%d_%H%M%S" ;;
  makedirs P "results" ;;;
  let json_file := "results/apartments_" ++ ts ++ ".json" in
  dump_json P json_file results ;;;
  log INFO "Results saved" ;;;
  let html_file := "results/apartments_" ++ ts ++ ".html" in
  html_content <- report results ;;
  write_text P html_file html_content ;;;
  log INFO "HTML report saved" ;;;
  (if notify_flag
   then
     s_enable <- getenv_default "ENABLE_NOTIFICATIONS" "false" ;;
     if String.eqb (lower s_enable) "true" then notify P results else ret tt
   else ret tt) ;;;
  ret results.

(** The search cycle, with the report step as a parameter. *)
Definition search_apartments_with (report : list Listing -> M string)
    (notify_flag : bool) : M (list Listing) :=
  log INFO "Starting apartment search..." ;;;
  params <- load_search_params ;;
  log INFO "Search params" ;;;
  results <- fetch P (criteria_of_params params) ;;
  persist_and_notify report notify_flag results.

(** [search_apartments(notify)] *)
Definition search_apartments (notify_flag : bool) : M (list Listing) :=
  search_apartments_with generate_html_report notify_flag.

(** [schedule.every().day.at(f"{hour:02d}:00")]: the library accepts the
    hours of a day only. *)
Definition register_job (hour : Z) : M unit :=
  if Z.leb 0 hour && Z.leb hour 23 then ret tt
  else raise (Exn ValueError "Invalid time format for a daily job").

Fixpoint register_jobs (hours : list Z) : M unit :=
  match hours with
  | [] => ret tt
  | h :: rest => register_job h ;;; register_jobs rest
  end.

(** The [while True] of [run_scheduler], observed for [passes] passes;
    [jobs] triggers are registered and each one that is due runs
    [search_apartments()]. *)
Fixpoint scheduler_loop (jobs passes : nat) : M LoopEnd :=
  match passes with
  | O => ret StillRunning
  | S n =>
      run_pending P jobs (search_apartments true ;;; ret tt) ;;;
      sleep P 60 ;;;
      scheduler_loop jobs n
  end.

(** [run_scheduler] *)
Definition run_scheduler (passes : nat) : M LoopEnd :=
  log INFO "Starting scheduler..." ;;;
  interval <- getenv_int "SCHEDULE_INTERVAL" 2 ;;
  start_hour <- getenv_int "SCHEDULE_START_HOUR" 8 ;;
  end_hour <- getenv_int "SCHEDULE_END_HOUR" 22 ;;
  match range_len start_hour end_hour interval with
  | None => raise (Exn ValueError "range() arg 3 must not be zero")
  | Some jobs =>
      register_jobs (range_hours start_hour interval jobs) ;;;
      log INFO "Scheduled searches" ;;;
      scheduler_loop jobs passes
  end.

(** The command line of [main]. *)
Record Cli := {
  cli_action : Action;
  cli_max_rent : option float;
  cli_min_rooms : option float;
  cli_districts : option string;
  cli_notify : option string;
  cli_port : Z
}.

Definition truthy_string (v : option string) : bool :=
  match v with
  | Some (String _ _) => true
  | _ => false
  end.

(** [main].  The action [web] hands over to the module [flask_app],
    which is not part of the two programs embedded here. *)
Definition main (cli : Cli) (passes : nat) : M LoopEnd :=
  (match cli_max_rent cli with
   | Some f => if truthy (PyFloat f) then setenv "MAX_RENT" (py_str P (PyFloat f)) else ret tt
   | None => ret tt
   end) ;;;
  (match cli_min_rooms cli with
   | Some f => if truthy (PyFloat f) then setenv "MIN_ROOMS" (py_str P (PyFloat f)) else ret tt
   | None => ret tt
   end) ;;;
  (match cli_districts cli with
   | Some (String a b) => setenv "DISTRICTS" (String a b)
   | _ => ret tt
   end) ;;;
  match cli_action cli with
  | ActSearch =>
      results <- search_apartments (truthy_string (cli_notify cli)) ;;
      print (PrFound (length results)) ;;;
      ret Stopped
  | ActSchedule => run_scheduler passes
  | ActWeb => ret StillRunning
  | ActGenerateStatic =>
      results <- search_apartments false ;;
      makedirs P "dist" ;;;
      report <- generate_html_report results ;;
      write_text P "dist/index.html" report ;;;
      print PrStaticSite ;;;
      ret Stopped
  end.

End Tool.
End RunPy.

(** ** The deduplicating search runner of the specification *)

(** Neither [main.py] nor [run.py] keeps an index of the listings seen
    before; the components below follow sections 3, 4.2, 4.3 and 4.4 of
    the specification. *)
Module Design.

(** Modelled from the spec: the Criteria value object of section 3,
    which no source file declares. *)
Record Criteria := {
  minRooms : float;
  maxRooms : float;
  maxRent : float;
  minArea : option float;
  districtSet : list string;
  eligibilityFlag : bool;
  companySet : list string
}.

(** Modelled from the spec: the Listing record of section 3, which no
    source file declares; [identity] is the deduplication key. *)
Record Listing := {
  identity : string;
  title : string;
  district : string;
  availableFrom : string;
  rooms : float;
  area : float;
  warmRent : float;
  eligibilityRequired : bool;
  eligibilityType : option string;
  sourceUrl : string
}.

(** Modelled from the spec: the ResultSet of section 3, which no source
    file declares. *)
Record ResultSet := {
  capturedAt : Z;
  criteria : Criteria;
  listings : list Listing
}.

(** Modelled from the spec: the outcome of one run (section 3),
    which no source file declares. *)
Inductive Error := FetchFailed | StoreError.

Inductive RunOutcome :=
  | Success (rs : ResultSet)
  | Failure (e : Error).

(** Modelled from the spec: one step of the loop of
    Deduplicator.filterNew (section 4.2), which is missing from the
    sources.  A listing whose identity is not in [previous] joins the new
    listings and its identity enters the index with the capture time;
    for any other listing only the stamp is updated. *)
Definition filter_step (previous : gmap string Z) (stamp : Z)
    (acc : list Listing * gmap string Z) (l : Listing)
    : list Listing * gmap string Z :=
  match previous !! identity l with
  | None => ((fst acc ++ [l])%list, <[identity l := stamp]> (snd acc))
  | Some _ => (fst acc, <[identity l := stamp]> (snd acc))
  end.

(** Modelled from the spec: Deduplicator.filterNew (section 4.2), which
    is missing from the sources: the listings are visited in provider
    order, starting from no new listing and the previous index. *)
Definition filterNew (previous : gmap string Z) (incoming : ResultSet)
    : list Listing * gmap string Z :=
  fold_left (filter_step previous (capturedAt incoming))
    (listings incoming) ([], previous).

(** Modelled from the spec: the state of ResultStore (section 4.3),
    which is missing from the sources: the records appended so far, the
    latest pointer and the persisted index. *)
Record Store := {
  records : list ResultSet;
  latest : option ResultSet;
  savedIndex : gmap string Z
}.

(** Modelled from the spec: the collaborators of section 6 as the runner
    sees them: what the provider adapter answers, whether the store
    accepts a record, whether the dispatcher accepts a delivery. *)
Record Collaborators := {
  adapter_fetch : Criteria -> option (list Listing);
  store_accepts : ResultSet -> bool;
  dispatcher_accepts : list Listing -> bool
}.

(** Modelled from the spec: ResultStore.append (section 4.3), which is
    missing from the sources: all or nothing, the latest pointer moves
    with the record. *)
Definition append (C : Collaborators) (st : Store) (rs : ResultSet) : option Store :=
  if store_accepts C rs
  then Some {| records := (records st ++ [rs])%list; latest := Some rs;
               savedIndex := savedIndex st |}
  else None.

(** Modelled from the spec: ResultStore.saveSeenIndex (section 4.3),
    which is missing from the sources. *)
Definition saveSeenIndex (idx : gmap string Z) (st : Store) : Store :=
  {| records := records st; latest := latest st; savedIndex := idx |}.

(** Modelled from the spec: the state a run works on: the SeenIndex held
    in memory, the store and the deliveries made so far. *)
Record RunnerState := {
  seenIndex : gmap string Z;
  store : Store;
  delivered : list (list Listing)
}.

(** Modelled from the spec: SearchRunner.run (section 4.4), which is
    missing from the sources.  Fetch; on failure leave everything as it
    is.  Otherwise build the ResultSet, deduplicate against the index in
    memory, append to the store - and on a StoreError keep the index of
    before (section 4.3) - then persist the updated index and deliver
    the new listings; a delivery failure changes nothing else. *)
Definition run (C : Collaborators) (now : Z) (crit : Criteria)
    (s : RunnerState) : RunOutcome * RunnerState :=
  match adapter_fetch C crit with
  | None => (Failure FetchFailed, s)
  | Some ls =>
      let rs := {| capturedAt := now; criteria := crit; listings := ls |} in
      let tentative := filterNew (seenIndex s) rs in
      match append C (store s) rs with
      | None => (Failure StoreError, s)
      | Some st' =>
          (Success rs,
           {| seenIndex := snd tentative;
              store := saveSeenIndex (snd tentative) st';
              delivered :=
                if dispatcher_accepts C (fst tentative)
                then (delivered s ++ [fst tentative])%list
                else delivered s |})
      end
  end.

End Design.

(** ** What a run adds to the trace *)

(** The trace grows at its head.  [since w w'] is what was recorded
    between [w] and a later world [w'], latest event first. *)
Definition since (w w' : World) : list (Z * Event) :=
  take (length (trace w') - length (trace w)) (trace w').

(** The criteria of the provider calls among some events, latest first. *)
Fixpoint fetched (evs : list (Z * Event)) : list Criteria :=
  match evs with
  | [] => []
  | (_, EvFetch c) :: rest => c :: fetched rest
  | _ :: rest => fetched rest
  end.

(** The durations of the sleeps among some events, latest first. *)
Fixpoint waits (evs : list (Z * Event)) : list Z :=
  match evs with
  | [] => []
  | (_, EvSleep d) :: rest => d :: waits rest
  | _ :: rest => waits rest
  end.

(** The environment variables read among some events, latest first. *)
Fixpoint env_reads (evs : list (Z * Event)) : list string :=
  match evs with
  | [] => []
  | (_, EvGetenv k) :: rest => k :: env_reads rest
  | _ :: rest => env_reads rest
  end.

(** The result lists handed to the notifier among some events. *)
Fixpoint notified (evs : list (Z * Event)) : list (list Listing) :=
  match evs with
  | [] => []
  | (_, EvNotify rs) :: rest => rs :: notified rest
  | _ :: rest => notified rest
  end.



Definition not_getenv (e : Event) : Prop :=
  match e with EvGetenv _ => False | _ => True end.

Definition not_fetch (e : Event) : Prop :=
  match e with EvFetch _ => False | _ => True end.

(** [w'] extends the trace of [w] by events that all satisfy [Q]. *)
Definition adds (Q : Event -> Prop) (w w' : World) : Prop :=
  exists new, trace w' = (new ++ trace w)%list /\ Forall (fun te => Q (snd te)) new.

(** The two [except] clauses of the worker loop. *)
Definition worker_except (P : Platform) (e : exn) (w : World) : outcome bool * World :=
  if is_KeyboardInterrupt e
  then (Return false, with_trace (cons (clock w, EvLog INFO "Worker stopped")) w)
  else if is_Exception e
  then match sleep P 300 (with_trace (cons (clock w, EvLog ERROR "Worker error")) w) with
       | (Return _, w') => (Return true, w')
       | (Raised e', w') => (Raised e', w')
       end
  else (Raised e, w).

(** Every run of [m] extends the trace by events that satisfy [Q]. *)
Definition m_adds {A} (Q : Event -> Prop) (m : M A) : Prop :=
  forall w, adds Q w (snd (m w)).

(** [m] raises in every world. *)
Definition always_raises {A} (m : M A) : Prop :=
  forall w, exists e, fst (m w) = Raised e.

(** ** A concrete platform and concrete worlds *)

Module Demo.

Definition digit (c : ascii) : option Z :=
  let n := nat_of_ascii c in
  if Nat.leb 48 n && Nat.leb n 57 then Some (Z.of_nat (n - 48)) else None.

Fixpoint digits (acc : Z) (s : string) : option Z :=
  match s with
  | EmptyString => Some acc
  | String c r =>
      match digit c with
      | Some d => digits (10 * acc + d) r
      | None => None
      end
  end.

(** [int(s)] on unsigned decimal numerals. *)
Definition int_of (s : string) : option Z :=
  match s with
  | EmptyString => None
  | _ => digits 0 s
  end.

Definition float_digit (c : ascii) : option float :=
  match digit c with
  | Some 0 => Some 0%float
  | Some 1 => Some 1%float
  | Some 2 => Some 2%float
  | Some 3 => Some 3%float
  | Some 4 => Some 4%float
  | Some 5 => Some 5%float
  | Some 6 => Some 6%float
  | Some 7 => Some 7%float
  | Some 8 => Some 8%float
  | Some 9 => Some 9%float
  | _ => None
  end.

Fixpoint float_digits (acc : float) (s : string) : option float :=
  match s with
  | EmptyString => Some acc
  | String c r =>
      match float_digit c with
      | Some d => float_digits (PrimFloat.add (PrimFloat.mul 10%float acc) d) r
      | None => None
      end
  end.

(** [float(s)] on unsigned decimal numerals. *)
Definition float_of (s : string) : option float :=
  match s with
  | EmptyString => None
  | _ => float_digits 0%float s
  end.

Definition str_of (v : pyval) : string :=
  match v with
  | PyNone => "None"
  | PyBool true => "True"
  | PyBool false => "False"
  | PyInt z => pretty z
  | PyFloat _ => "<float>"
  | PyStr s => s
  | PyObject _ => "<object>"
  end.

(** A platform without faults, around a given provider. *)
Definition platform (prov : nat -> Criteria -> Z * outcome (list Listing)) : Platform :=
  {| py_float := float_of;
     py_int := int_of;
     py_str := str_of;
     py_format_spec := fun v _ => Return v;
     strftime := fun _ _ => "20260101_090000";
     provider := prov;
     io_fault := fun _ _ => None;
     default_decode := fun doc => Return doc;
     notifier := fun _ _ => None;
     sleep_interrupt := fun _ _ => None;
     jobs_due := fun _ => 1%nat |}.

Definition unset_config : Config :=
  {| max_rent := 0%float; min_rooms := 0%float; max_rooms := 0%float;
     min_area := None; districts := []; wbs := false; companies := [];
     port := 0; mode := "" |}.

(** A process that just started, with the given environment. *)
Definition start (environment : gmap string string) : World :=
  {| env := environment; fs := ∅; clock := 0; trace := [];
     calls := 0; ios := 0; notifications := 0; sleeps := 0; polls := 0;
     app_config := unset_config |}.

Definition flat : Listing :=
  <["title" := PyStr "Altbau"]> (<["url" := PyStr "https://example.org/a"]> ∅).

(** Providers: one that finds [flat] on every call, and three that fail
    on every call after five seconds. *)
Definition finds_flat (n : nat) (c : Criteria) : Z * outcome (list Listing) :=
  (5, Return [flat]).

Definition fetch_error (n : nat) (c : Criteria) : Z * outcome (list Listing) :=
  (5, Raised (Exn FetchError "provider unreachable")).

Definition interrupted (n : nat) (c : Criteria) : Z * outcome (list Listing) :=
  (5, Raised (Exn KeyboardInterrupt "")).

(** The application of [main.py] after its constructor, in an empty
    environment. *)
Definition app_started : World :=
  snd (MainPy.init (platform finds_flat) (start ∅)).

(** A request for [/api/search?max_rent=900]. *)
Definition ask_900 : gmap string string := <["max_rent" := "900"]> ∅.

Definition environment_with_notifications : gmap string string :=
  <["ENABLE_NOTIFICATIONS" := "true"]> ∅.

Definition listing_a : Design.Listing :=
  {| Design.identity := "a"; Design.title := "A"; Design.district := "Mitte";
     Design.availableFrom := "sofort"; Design.rooms := 2%float;
     Design.area := 50%float; Design.warmRent := 900%float;
     Design.eligibilityRequired := false; Design.eligibilityType := None;
     Design.sourceUrl := "https://example.org/a" |}.

Definition listing_b : Design.Listing :=
  {| Design.identity := "b"; Design.title := "B"; Design.district := "Mitte";
     Design.availableFrom := "sofort"; Design.rooms := 3%float;
     Design.area := 70%float; Design.warmRent := 1100%float;
     Design.eligibilityRequired := false; Design.eligibilityType := None;
     Design.sourceUrl := "https://example.org/b" |}.

Definition listing_c : Design.Listing :=
  {| Design.identity := "c"; Design.title := "C"; Design.district := "Pankow";
     Design.availableFrom := "sofort"; Design.rooms := 2%float;
     Design.area := 55%float; Design.warmRent := 950%float;
     Design.eligibilityRequired := true; Design.eligibilityType := Some "WBS 140";
     Design.sourceUrl := "https://example.org/c" |}.

Definition any_criteria : Design.Criteria :=
  {| Design.minRooms := 2%float; Design.maxRooms := 3%float;
     Design.maxRent := 1200%float; Design.minArea := None;
     Design.districtSet := ["Mitte"]; Design.eligibilityFlag := false;
     Design.companySet := ["inberlinwohnen"] |}.

Definition incoming_abc : Design.ResultSet :=
  {| Design.capturedAt := 20; Design.criteria := any_criteria;
     Design.listings := [listing_a; listing_b; listing_c] |}.

Definition seen_ab : gmap string Z := <["a" := 10]> (<["b" := 10]> ∅).



End Demo.

(** ** Further observations *)

(** What was printed among some events, latest first. *)
Fixpoint printed (evs : list (Z * Event)) : list PrintLine :=
  match evs with
  | [] => []
  | (_, EvPrint l) :: rest => l :: printed rest
  | _ :: rest => printed rest
  end.

(** The paths of the files opened for writing among some events, latest
    first. *)
Fixpoint written (evs : list (Z * Event)) : list string :=
  match evs with
  | [] => []
  | (_, EvWrite p) :: rest => p :: written rest
  | _ :: rest => written rest
  end.

Definition not_sleep (e : Event) : Prop :=
  match e with EvSleep _ => False | _ => True end.

Definition not_print (e : Event) : Prop :=
  match e with EvPrint _ => False | _ => True end.


(** Every run of [m] leaves the observation [f] of the world as it is. *)
Definition m_keeps {A B} (f : World -> B) (m : M A) : Prop :=
  forall w, f (snd (m w)) = f w.

(** A handler of the web server that has called the provider. *)
Definition entered (t : Web.Thread) : bool :=
  match Web.th_pc t with
  | Web.InProvider _ _ _ | Web.AtRestore _ _ | Web.Finished _ => true
  | _ => false
  end.

Definition entered_count (ts : list Web.Thread) : nat :=
  length (filter (fun t => entered t = true) ts).

(** The lines [run_once] prints for its results, first line first. *)
Definition once_report (results : list Listing) : list PrintLine :=
  PrFound (length results) ::
  match results with
  | [] => []
  | _ => PrTopHeader :: PrRule ::
         imap (fun i apt => PrApartment (S i) apt) (take 5 results)
  end.

(** The value [load_config] and [load_search_params] give to the area
    bound: none when [MIN_AREA] is unset or empty. *)
Definition min_area_of (P : Platform) (environment : gmap string string) : option float :=
  match environment !! "MIN_AREA" with
  | Some (String a b) => py_float P (String a b)
  | _ => None
  end.

(** Platforms and worlds for the cases below. *)
Module Cases.

(** A listing with a value [json.dump] cannot serialise. *)
Definition odd : Listing := <["available_from" := PyObject 0]> ∅.

Definition finds_odd (n : nat) (c : Criteria) : Z * outcome (list Listing) :=
  (5, Return [odd]).

(** The platform of [Demo] with given file system faults and sleep
    interruptions. *)
Definition platform (prov : nat -> Criteria -> Z * outcome (list Listing))
    (faults : nat -> string -> option exn)
    (cuts : nat -> Z -> option (Z * exn)) (due : nat -> nat) : Platform :=
  {| py_float := Demo.float_of;
     py_int := Demo.int_of;
     py_str := Demo.str_of;
     py_format_spec := fun v _ => Return v;
     strftime := fun _ _ => "20260101_090000";
     provider := prov;
     io_fault := faults;
     default_decode := fun doc => Return doc;
     notifier := fun _ _ => None;
     sleep_interrupt := cuts;
     jobs_due := due |}.

Definition no_fault (n : nat) (path : string) : option exn := None.

Definition no_cut (n : nat) (d : Z) : option (Z * exn) := None.

(** Control-C arrives ten seconds into every sleep. *)
Definition control_c (n : nat) (d : Z) : option (Z * exn) :=
  Some (10, Exn KeyboardInterrupt "").

(** The directory of the results cannot be created. *)
Definition read_only (n : nat) (path : string) : option exn :=
  Some (Exn OSError "Read-only file system").

Definition one_due (k : nat) : nat := 1%nat.

Definition two_due (k : nat) : nat := 2%nat.

Definition rent_not_a_number : gmap string string := <["MAX_RENT" := "cheap"]> ∅.

Definition spaced_districts : gmap string string :=
  <["DISTRICTS" := "Mitte, Pankow"]> (<["MIN_AREA" := "50"]> ∅).

(** What [load_search_params] reads from [spaced_districts]. *)
Definition spaced_params : RunPy.SearchParameters :=
  {| RunPy.sp_min_rooms := 2%float; RunPy.sp_max_rooms := 3%float;
     RunPy.sp_max_rent := 1200%float; RunPy.sp_min_area := Some 50%float;
     RunPy.sp_districts := ["Mitte"; "Pankow"]; RunPy.sp_wbs_required := false;
     RunPy.sp_wbs_type := None; RunPy.sp_companies := ["inberlinwohnen"] |}.

(** What [load_search_params] reads from an empty environment. *)
Definition default_params : RunPy.SearchParameters :=
  {| RunPy.sp_min_rooms := 2%float; RunPy.sp_max_rooms := 3%float;
     RunPy.sp_max_rent := 1200%float; RunPy.sp_min_area := None;
     RunPy.sp_districts := ["Mitte"; "Friedrichshain"];
     RunPy.sp_wbs_required := false;
     RunPy.sp_wbs_type := None; RunPy.sp_companies := ["inberlinwohnen"] |}.

Definition interval_zero : gmap string string := <["SCHEDULE_INTERVAL" := "0"]> ∅.

Definition unknown_mode : gmap string string := <["MODE" := "daemon"]> ∅.

Definition cli (a : RunPy.Action) (rent : option float) : RunPy.Cli :=
  {| RunPy.cli_action := a; RunPy.cli_max_rent := rent;
     RunPy.cli_min_rooms := None; RunPy.cli_districts := None;
     RunPy.cli_notify := None; RunPy.cli_port := 5000 |}.

End Cases.

(** ** Lemmas on traces *)

Lemma adds_refl Q w : adds Q w w.
Proof. exists []. split; [reflexivity | constructor]. Qed.

Lemma adds_trans Q w1 w2 w3 : adds Q w1 w2 -> adds Q w2 w3 -> adds Q w1 w3.
Proof.
  intros [n1 [E1 F1]] [n2 [E2 F2]].
  exists (n2 ++ n1)%list. split.
  - rewrite E2, E1. apply app_assoc.
  - apply Forall_app. split; assumption.
Qed.

Lemma adds_same_trace Q w w' : trace w' = trace w -> adds Q w w'.
Proof. intros E. exists []. split; [exact E | constructor]. Qed.

Lemma since_app w w' new : trace w' = (new ++ trace w)%list -> since w w' = new.
Proof.
  intros E. unfold since. rewrite E, length_app.
  replace (length new + length (trace w) - length (trace w))%nat with (length new) by lia.
  apply take_app_length.
Qed.

Lemma adds_since Q w w' : adds Q w w' -> Forall (fun te => Q (snd te)) (since w w').
Proof. intros [new [E F]]. rewrite (since_app _ _ _ E). exact F. Qed.

Lemma since_trans w1 w2 w3 Q Q' :
  adds Q w1 w2 -> adds Q' w2 w3 -> since w1 w3 = (since w2 w3 ++ since w1 w2)%list.
Proof.
  intros [n1 [E1 _]] [n2 [E2 _]].
  rewrite (since_app _ _ _ E1), (since_app _ _ _ E2).
  apply since_app. rewrite E2, E1. apply app_assoc.
Qed.

Lemma m_adds_ret {A} Q (a : A) : m_adds Q (ret a).
Proof. intros w. apply adds_refl. Qed.

Lemma m_adds_raise {A} Q e : m_adds Q (@raise A e).
Proof. intros w. apply adds_refl. Qed.

Lemma m_adds_gets {A} Q (f : World -> A) : m_adds Q (gets f).
Proof. intros w. apply adds_refl. Qed.

Lemma m_adds_modify Q f : (forall w, trace (f w) = trace w) -> m_adds Q (modify f).
Proof. intros H w. apply adds_same_trace. apply H. Qed.

Lemma m_adds_emit (Q : Event -> Prop) e : Q e -> m_adds Q (emit e).
Proof.
  intros H w. exists [(clock w, e)]. split; [reflexivity |].
  constructor; [exact H | constructor].
Qed.

Lemma m_adds_bind {A B} Q (m : M A) (k : A -> M B) :
  m_adds Q m -> (forall a, m_adds Q (k a)) -> m_adds Q (bind m k).
Proof.
  intros Hm Hk w. unfold bind. specialize (Hm w).
  destruct (m w) as [[a | e] w1]; simpl in *.
  - eapply adds_trans; [exact Hm | apply Hk].
  - exact Hm.
Qed.

Lemma m_adds_bind_raises {A B} Q (m : M A) (k : A -> M B) :
  m_adds Q m -> always_raises m -> m_adds Q (bind m k).
Proof.
  intros Hm Hr w. unfold bind. specialize (Hm w). destruct (Hr w) as [e He].
  destruct (m w) as [[a | e'] w1]; simpl in *; [discriminate | exact Hm].
Qed.

Lemma m_adds_try_except {A} Q (body : M A) catches handler :
  m_adds Q body -> (forall e, m_adds Q (handler e)) ->
  m_adds Q (try_except body catches handler).
Proof.
  intros Hb Hh w. unfold try_except. specialize (Hb w).
  destruct (body w) as [[a | e] w1]; simpl in *; [exact Hb |].
  destruct (catches e); [| exact Hb].
  eapply adds_trans; [exact Hb | apply Hh].
Qed.

Lemma m_adds_try_except2 {A} Q (body : M A) c1 h1 c2 h2 :
  m_adds Q body -> (forall e, m_adds Q (h1 e)) -> (forall e, m_adds Q (h2 e)) ->
  m_adds Q (try_except2 body c1 h1 c2 h2).
Proof.
  intros Hb H1 H2 w. unfold try_except2. specialize (Hb w).
  destruct (body w) as [[a | e] w1]; simpl in *; [exact Hb |].
  destruct (c1 e); [eapply adds_trans; [exact Hb | apply H1] |].
  destruct (c2 e); [eapply adds_trans; [exact Hb | apply H2] | exact Hb].
Qed.

Lemma always_raises_bind {A B} (m : M A) (k : A -> M B) :
  always_raises m -> always_raises (bind m k).
Proof.
  intros Hr w. unfold bind. destruct (Hr w) as [e He].
  destruct (m w) as [[a | e'] w1]; simpl in *; [discriminate | eauto].
Qed.

Lemma always_raises_bind_r {A B} (m : M A) (k : A -> M B) :
  (forall a, always_raises (k a)) -> always_raises (bind m k).
Proof.
  intros Hk w. unfold bind.
  destruct (m w) as [[a | e'] w1]; simpl; [apply Hk | eauto].
Qed.

(** Decompose a statement into the primitives it is built from. *)
Ltac adds_step :=
  first
    [ apply m_adds_ret
    | apply m_adds_raise
    | apply m_adds_gets
    | apply m_adds_modify; intros; reflexivity
    | apply m_adds_emit; exact I
    | apply m_adds_bind; [| intros ?]
    | apply m_adds_try_except; [| intros ?]
    | apply m_adds_try_except2; [| intros ? | intros ?]
    | match goal with
      | |- m_adds _ (match ?x with _ => _ end) => destruct x
      | |- m_adds _ (if ?x then _ else _) => destruct x
      | |- m_adds _ (let '(_, _) := ?x in _) => destruct x
      end ].

(** ** main.py: what [search] lets through *)

Ltac run_monad :=
  cbv [bind ret raise modify gets try_except try_except2 emit log print
       fetch fetch_call fetch_return] in *.

Lemma search_unfold P w :
  MainPy.search P w =
  match MainPy.search_body P (snd (log INFO "Starting apartment search..." w)) with
  | (Return rs, w1) => (Return rs, w1)
  | (Raised e, w1) =>
      if is_Exception e then MainPy.search_failed e w1 else (Raised e, w1)
  end.
Proof. reflexivity. Qed.

Lemma search_failed_returns e w : fst (MainPy.search_failed e w) = Return [].
Proof. reflexivity. Qed.

(** When the provider raises, the body of [search] raises the same
    exception and nothing is written. *)
Lemma search_body_provider_raises P w e :
  snd (provider P (calls w) (criteria_of (app_config w))) = Raised e ->
  fst (MainPy.search_body P w) = Raised e /\
  fs (snd (MainPy.search_body P w)) = fs w.
Proof.
  intros H. unfold MainPy.search_body. run_monad. simpl.
  rewrite H. simpl. split; reflexivity.
Qed.

Lemma search_provider_raises P w e :
  snd (provider P (calls w) (criteria_of (app_config w))) = Raised e ->
  is_Exception e = true ->
  fst (MainPy.search P w) = Return [] /\ fs (snd (MainPy.search P w)) = fs w.
Proof.
  intros H He. rewrite search_unfold.
  pose proof (search_body_provider_raises P
                (snd (log INFO "Starting apartment search..." w)) e H) as [B F].
  destruct (MainPy.search_body P _) as [[rs | e'] w1]; simpl in *; [discriminate |].
  inversion B; subst e'. rewrite He. split; [reflexivity | exact F].
Qed.




(** ** main.py: the once mode *)

Lemma run_once_provider_raises P w e :
  snd (provider P (calls w) (criteria_of (app_config w))) = Raised e ->
  is_Exception e = true ->
  fst (MainPy.run_once P w) = Return tt.
Proof.
  intros H He. unfold MainPy.run_once.
  cbv [bind log emit modify].
  pose proof (search_provider_raises P
     (with_trace (cons (clock w, EvLog INFO "Running single search...")) w) e H He) as [S _].
  destruct (MainPy.search P _) as [[rs | e'] w1]; simpl in S; [| discriminate].
  inversion S; subst rs. reflexivity.
Qed.

(** C6, counterexample: in once mode, with a provider that raises
    [FetchError] on every call, the process completes with status zero. *)
Lemma once_mode_fetch_error_exits_zero :
  ~ (forall (P : Platform) (w : World) (e : exn),
       (forall n c, snd (provider P n c) = Raised e) ->
       exn_cls e = FetchError ->
       exit_status (fst (MainPy.main P (Some "once") None [] 0 w)) <> 0).
Proof.
  intros H.
  apply (H (Demo.platform Demo.fetch_error) (Demo.start ∅)
           (Exn FetchError "provider unreachable")).
  - intros n c. reflexivity.
  - reflexivity.
  - vm_compute. reflexivity.
Qed.

(** C6, amended: in once mode, when the provider fetch raises an
    exception of class [Exception] (a fetch error or a timeout), [search]
    absorbs it, [run_once] returns normally and the process completes
    with status zero. *)
Theorem once_mode_failure_completes_with_zero (P : Platform) (w : World)
    (e : exn) (requests : list Request) (passes : nat) :
  snd (provider P (calls w) (criteria_of (app_config w))) = Raised e ->
  is_Exception e = true ->
  fst (MainPy.run P (Some "once") requests passes w) = Return Stopped /\
  exit_status (fst (MainPy.run P (Some "once") requests passes w)) = 0.
Proof.
  intros H He.
  assert (R : fst (MainPy.run P (Some "once") requests passes w) = Return Stopped).
  { unfold MainPy.run. cbv [bind gets log emit modify ret]. simpl.
    pose proof (run_once_provider_raises P
      (with_trace (cons (clock w, EvLog INFO "Starting Berlin Housing Scraper")) w)
      e H He) as R1.
    destruct (MainPy.run_once P _) as [[[] | e'] w1]; simpl in R1; [reflexivity | discriminate]. }
  rewrite R. split; reflexivity.
Qed.

Lemma once_mode_failure_completes_with_zero_witness :
  fst (MainPy.run (Demo.platform Demo.fetch_error) (Some "once") [] 0 Demo.app_started)
    = Return Stopped /\
  exit_status
    (fst (MainPy.run (Demo.platform Demo.fetch_error) (Some "once") [] 0 Demo.app_started))
    = 0.
Proof.
  apply (once_mode_failure_completes_with_zero (Demo.platform Demo.fetch_error)
           Demo.app_started (Exn FetchError "provider unreachable")).
  - reflexivity.
  - reflexivity.
Defined.

(** ** main.py: the worker loop *)

Lemma cons_app_eq {A} (x : A) (l new t : list A) :
  l = (new ++ t)%list -> x :: l = ((x :: new) ++ t)%list.
Proof. intros ->. reflexivity. Qed.

Lemma nil_app_eq {A} (t : list A) : t = ([] ++ t)%list.
Proof. reflexivity. Qed.

(** Read off what was added in front of a trace. *)
Ltac trace_split := repeat (apply cons_app_eq); apply nil_app_eq.

Ltac since_now := erewrite since_app; [| simpl; trace_split].

Lemma sleep_through P d w :
  sleep_interrupt P (sleeps w) d = None ->
  sleep P d w =
  (Return tt, with_clock (Z.add d) (with_sleeps S (with_trace (cons (clock w, EvSleep d)) w))).
Proof. intros H. unfold sleep. run_monad. simpl. rewrite H. reflexivity. Qed.

Lemma sleep_cut P d w t e :
  sleep_interrupt P (sleeps w) d = Some (t, e) ->
  sleep P d w =
  (Raised e, with_clock (Z.add t) (with_sleeps S (with_trace (cons (clock w, EvSleep d)) w))).
Proof. intros H. unfold sleep. run_monad. simpl. rewrite H. reflexivity. Qed.

Lemma worker_pass_unfold P w :
  MainPy.worker_pass P w =
  match MainPy.search P w with
  | (Return _, w1) =>
      match sleep P 7200 w1 with
      | (Return _, w2) => (Return true, w2)
      | (Raised e, w2) => worker_except P e w2
      end
  | (Raised e, w1) => worker_except P e w1
  end.
Proof.
  unfold MainPy.worker_pass, try_except2, worker_except. unfold bind at 1.
  destruct (MainPy.search P w) as [[rs | e] w1]; [| reflexivity].
  unfold bind at 1.
  destruct (sleep P 7200 w1) as [[[] | e] w2]; reflexivity.
Qed.





(** ** main.py: saving the results and reading the latest ones *)






(** ** run.py: the report template and the search cycle *)

Ltac adds_prims :=
  progress unfold log, print, getenv, getenv_default, setenv, to_float, to_int,
    timestamp, fetch, fetch_call, fetch_return, io_op, makedirs, dump_json,
    write_text, load_json, sleep, notify.

Ltac adds_all := repeat first [adds_step | adds_prims].

(** The first replacement field [format] meets in the template is the
    body of the first CSS rule, whose braces are not doubled; no keyword
    argument has that name. *)
Lemma template_has_unknown_field P (a b c : pyval) :
  Format.py_format P RunPy.html_template
    [("count", a); ("timestamp", b); ("apartments_html", c)]
  = Raised (Exn KeyError " font-family").
Proof. vm_compute. reflexivity. Qed.

(** [generate_html_report] raises [KeyError] on every list of
    apartments and changes nothing. *)
Lemma generate_html_report_raises P apartments w :
  RunPy.generate_html_report P apartments w = (Raised (Exn KeyError " font-family"), w).
Proof.
  unfold RunPy.generate_html_report, timestamp. run_monad.
  rewrite template_has_unknown_field. reflexivity.
Qed.

Lemma generate_html_report_always_raises P apartments :
  always_raises (RunPy.generate_html_report P apartments).
Proof. intros w. rewrite generate_html_report_raises. eauto. Qed.

Lemma load_search_params_adds Q P :
  (forall k, Q (EvGetenv k)) -> m_adds Q (RunPy.load_search_params P).
Proof.
  intros HQ. unfold RunPy.load_search_params, RunPy.getenv_float.
  repeat first
    [ apply m_adds_emit; apply HQ
    | adds_step
    | adds_prims ].
Qed.


Lemma env_reads_none evs :
  Forall (fun te : Z * Event => not_getenv (snd te)) evs -> env_reads evs = [].
Proof.
  induction 1 as [| [t e] rest H _ IH]; [reflexivity |].
  destruct e; simpl in *; try exact IH. contradiction.
Qed.

Lemma fetched_none evs :
  Forall (fun te : Z * Event => not_fetch (snd te)) evs -> fetched evs = [].
Proof.
  induction 1 as [| [t e] rest H _ IH]; [reflexivity |].
  destruct e; simpl in *; try exact IH. contradiction.
Qed.

Lemma fetched_app a b : fetched (a ++ b)%list = (fetched a ++ fetched b)%list.
Proof.
  induction a as [| [t e] a IH]; [reflexivity |].
  destruct e; simpl; rewrite ?IH; reflexivity.
Qed.

(** What follows the provider call in the cycle of [run.py] always ends
    with the [KeyError] of the report, before the notification step. *)
Lemma persist_and_notify_adds (Q : Event -> Prop) P flag results :
  (forall l m, Q (EvLog l m)) -> (forall path, Q (EvWrite path)) ->
  m_adds Q (RunPy.persist_and_notify P (RunPy.generate_html_report P) flag results).
Proof.
  intros HL HW. unfold RunPy.persist_and_notify.
  do 5 (apply m_adds_bind;
        [repeat first [apply m_adds_emit; first [apply HL | apply HW]
                      | adds_step | adds_prims]
        | intros ?]).
  apply m_adds_bind_raises; [| apply generate_html_report_always_raises].
  intros w. rewrite generate_html_report_raises. apply adds_refl.
Qed.

Lemma persist_and_notify_always_raises P flag results :
  always_raises (RunPy.persist_and_notify P (RunPy.generate_html_report P) flag results).
Proof.
  unfold RunPy.persist_and_notify.
  do 5 (apply always_raises_bind_r; intros ?).
  apply always_raises_bind. apply generate_html_report_always_raises.
Qed.


Lemma search_apartments_always_raises P flag :
  always_raises (RunPy.search_apartments P flag).
Proof.
  unfold RunPy.search_apartments, RunPy.search_apartments_with.
  do 4 (apply always_raises_bind_r; intros ?).
  apply persist_and_notify_always_raises.
Qed.














(** The notification step itself compares nothing with earlier cycles:
    were the report to succeed, two cycles that find the same listing
    would hand it to the notifier twice. *)
Lemma notify_step_keeps_no_memory :
  let P := Demo.platform Demo.finds_flat in
  let cycle := RunPy.search_apartments_with P (fun _ => ret "report") true in
  let w := Demo.start Demo.environment_with_notifications in
  notified (since w (snd ((cycle ;;; cycle) w))) = [[Demo.flat]; [Demo.flat]].
Proof. vm_compute. reflexivity. Qed.

(** ** Where the criteria of a cycle come from *)

Lemma fetched_adds_none w w' : adds not_fetch w w' -> fetched (since w w') = [].
Proof. intros H. apply fetched_none. apply adds_since. exact H. Qed.

Lemma fetched_since_trans Q Q' w1 w2 w3 :
  adds Q w1 w2 -> adds Q' w2 w3 ->
  fetched (since w1 w3) = (fetched (since w2 w3) ++ fetched (since w1 w2))%list.
Proof.
  intros H1 H2. rewrite (since_trans _ _ _ _ _ H1 H2). apply fetched_app.
Qed.

(** A statement that calls the provider with [c] and goes on with
    statements that do not call it has called it exactly once, with [c]. *)
Lemma bind_fetch_fetched {B} P c (k : list Listing -> M B) w :
  (forall rs, m_adds not_fetch (k rs)) ->
  fetched (since w (snd (bind (fetch P c) k w))) = [c].
Proof.
  intros Hk.
  set (w3 := with_calls S (with_trace (cons (clock w, EvFetch c)) w)).
  change (bind (fetch P c) k w) with (bind (fetch_return P (calls w) c) k w3).
  assert (H1 : adds (fun _ => True) w w3).
  { exists [(clock w, EvFetch c)]. split; [reflexivity | repeat constructor]. }
  assert (H2 : adds not_fetch w3 (snd (bind (fetch_return P (calls w) c) k w3))).
  { apply m_adds_bind; [adds_all | exact Hk]. }
  rewrite (fetched_since_trans _ _ _ _ _ H1 H2).
  rewrite (fetched_adds_none _ _ H2).
  rewrite (since_app w w3 [(clock w, EvFetch c)] eq_refl). reflexivity.
Qed.

Lemma save_results_adds Q P results :
  (forall e, match e with EvLog _ _ | EvWrite _ => Q e | _ => True end) ->
  m_adds Q (MainPy.save_results P results).
Proof.
  intros HQ. unfold MainPy.save_results.
  repeat first
    [ apply m_adds_emit;
      match goal with |- Q ?e => exact (HQ e) end
    | adds_step
    | adds_prims ].
Qed.

Lemma search_resume_adds P n c : m_adds not_fetch (Web.search_resume P n c).
Proof.
  unfold Web.search_resume, MainPy.search_failed.
  apply m_adds_try_except; [| intros e; adds_all].
  apply m_adds_bind; [adds_all | intros results].
  apply m_adds_bind; [adds_all | intros _].
  apply m_adds_bind; [| intros _; adds_all].
  apply save_results_adds. intros []; exact I.
Qed.

(** [search] is the call of the provider, with the criteria of
    [self.config], followed by what [search] does with the answer. *)
Lemma search_split P w :
  MainPy.search P w =
  Web.search_resume P (calls w) (criteria_of (app_config w))
    (with_calls S
       (with_trace (cons (clock w, EvFetch (criteria_of (app_config w))))
          (with_trace (cons (clock w, EvLog INFO "Starting apartment search...")) w))).
Proof. reflexivity. Qed.

Lemma search_fetched P w :
  fetched (since w (snd (MainPy.search P w))) = [criteria_of (app_config w)].
Proof.
  rewrite search_split.
  set (c := criteria_of (app_config w)).
  set (w3 := with_calls S _).
  assert (H1 : adds (fun _ => True) w w3).
  { exists [(clock w, EvFetch c); (clock w, EvLog INFO "Starting apartment search...")].
    split; [reflexivity | repeat constructor]. }
  pose proof (search_resume_adds P (calls w) c w3) as H2.
  rewrite (fetched_since_trans _ _ _ _ _ H1 H2).
  rewrite (fetched_adds_none _ _ H2).
  rewrite (since_app w w3
             [(clock w, EvFetch c); (clock w, EvLog INFO "Starting apartment search...")]
             eq_refl).
  reflexivity.
Qed.

Lemma search_adds_no_getenv P : m_adds not_getenv (MainPy.search P).
Proof.
  unfold MainPy.search, MainPy.search_body, MainPy.search_failed.
  apply m_adds_bind; [adds_all | intros _].
  apply m_adds_try_except; [| intros e; adds_all].
  apply m_adds_bind; [adds_all | intros cfg].
  apply m_adds_bind; [adds_all | intros results].
  apply m_adds_bind; [adds_all | intros _].
  apply m_adds_bind; [| intros _; adds_all].
  apply save_results_adds. intros []; exact I.
Qed.

Lemma search_apartments_unfold P flag w :
  RunPy.search_apartments P flag w =
  match RunPy.load_search_params P
          (with_trace (cons (clock w, EvLog INFO "Starting apartment search...")) w) with
  | (Return params, w1) =>
      bind (fetch P (RunPy.criteria_of_params params))
        (RunPy.persist_and_notify P (RunPy.generate_html_report P) flag)
        (with_trace (cons (clock w1, EvLog INFO "Search params")) w1)
  | (Raised e, w1) => (Raised e, w1)
  end.
Proof.
  unfold RunPy.search_apartments, RunPy.search_apartments_with.
  unfold bind at 1. cbv [log emit modify]. cbv beta iota.
  unfold bind at 1.
  destruct (RunPy.load_search_params P _) as [[params | e] w1]; reflexivity.
Qed.

(** C5, counterexample: the search cycle of [run.py] reads the
    environment - [DISTRICTS], [COMPANIES], [MIN_ROOMS], [MAX_ROOMS],
    [MAX_RENT], [MIN_AREA], [WBS_REQUIRED], [WBS_TYPE] - while it runs. *)
Lemma cycle_reads_the_environment :
  ~ (forall (P : Platform) (flag : bool) (w : World),
       env_reads (since w (snd (RunPy.search_apartments P flag w))) = []).
Proof.
  intros H.
  specialize (H (Demo.platform Demo.finds_flat) false (Demo.start ∅)).
  vm_compute in H. discriminate.
Qed.

(** C5, amended: [main.py] reads the configuration in the constructor
    of the application; a search of [main.py] reads no environment
    variable and calls the provider once, with the criteria [self.config]
    holds when the search starts.  [run.py] builds no criteria at
    startup: its cycle reads the environment itself and calls the
    provider once, with the criteria [load_search_params] derives from
    the environment at that moment (and not at all when the environment
    does not parse). *)
Theorem criteria_of_a_cycle (P : Platform) (w : World) (flag : bool) :
  (env_reads (since w (snd (MainPy.search P w))) = [] /\
   fetched (since w (snd (MainPy.search P w))) = [criteria_of (app_config w)]) /\
  match RunPy.load_search_params P
          (snd (log INFO "Starting apartment search..." w)) with
  | (Return params, _) =>
      fetched (since w (snd (RunPy.search_apartments P flag w)))
        = [RunPy.criteria_of_params params]
  | (Raised e, _) =>
      fst (RunPy.search_apartments P flag w) = Raised e /\
      fetched (since w (snd (RunPy.search_apartments P flag w))) = []
  end.
Proof.
  split.
  - split; [| apply search_fetched].
    apply env_reads_none. apply adds_since. apply search_adds_no_getenv.
  - rewrite search_apartments_unfold.
    set (w0 := with_trace _ w).
    assert (H0 : adds not_fetch w w0).
    { exists [(clock w, EvLog INFO "Starting apartment search...")].
      split; [reflexivity | repeat constructor]. }
    pose proof (load_search_params_adds not_fetch P (fun _ => I) w0) as H1.
    change (snd (log INFO "Starting apartment search..." w)) with w0.
    destruct (RunPy.load_search_params P w0) as [[params | e] w1]; simpl in H1.
    + set (w2 := with_trace _ w1).
      assert (H2 : adds not_fetch w1 w2).
      { exists [(clock w1, EvLog INFO "Search params")].
        split; [reflexivity | repeat constructor]. }
      pose proof (adds_trans _ _ _ _ (adds_trans _ _ _ _ H0 H1) H2) as H02.
      assert (Hk : forall rs, m_adds not_fetch
                (RunPy.persist_and_notify P (RunPy.generate_html_report P) flag rs)).
      { intros rs. apply persist_and_notify_adds; intros; exact I. }
      match goal with
      | |- fetched (since w (snd (bind (fetch P ?c) ?k w2))) = _ =>
          assert (H3 : adds (fun _ => True) w2 (snd (bind (fetch P c) k w2)))
      end.
      { apply m_adds_bind; [adds_all | intros rs].
        apply persist_and_notify_adds; intros; exact I. }
      rewrite (fetched_since_trans _ _ _ _ _ H02 H3).
      rewrite (fetched_adds_none _ _ H02).
      rewrite bind_fetch_fetched by exact Hk. reflexivity.
    + split; [reflexivity |].
      apply fetched_adds_none. eapply adds_trans; [exact H0 | exact H1].
Qed.

(** ** main.py: the search route of the web server *)

Lemma act_reachable P s0 s a :
  Web.reachable P s0 s -> Web.reachable P s0 (Web.act P a s).
Proof.
  intros H. destruct s as [w ts]. destruct a as [args | i]; simpl.
  - eapply Web.reach_step; [exact H | apply Web.step_accept].
  - destruct (ts !! i) as [t |] eqn:E; [| exact H].
    destruct (Web.finished t) eqn:F; [exact H |].
    eapply Web.reach_step; [exact H | apply Web.step_thread; assumption].
Qed.

Lemma play_reachable P schedule s0 s :
  Web.reachable P s0 s -> Web.reachable P s0 (Web.play P schedule s).
Proof.
  revert s. induction schedule as [| a rest IH]; intros s H; simpl; [exact H |].
  apply IH. apply act_reachable. exact H.
Qed.

Lemma api_search_unfold P args w :
  MainPy.api_search P args w =
  match MainPy.search P
          (with_config
             (set_min_rooms (MainPy.arg_float P args "min_rooms" (min_rooms (app_config w))))
             (with_config
                (set_max_rent (MainPy.arg_float P args "max_rent" (max_rent (app_config w))))
                w)) with
  | (Return rs, w1) => (Return rs, with_config (fun _ => app_config w) w1)
  | (Raised e, w1) => (Raised e, w1)
  end.
Proof.
  unfold MainPy.api_search. cbv [bind gets modify ret]. cbv beta iota.
  destruct (MainPy.search P _) as [[rs | e] w1]; reflexivity.
Qed.

Lemma since_traces a a' b b' :
  trace a = trace a' -> trace b = trace b' -> since a b = since a' b'.
Proof. unfold since. intros -> ->. reflexivity. Qed.

(** A handler that runs alone, statement by statement, does what
    [api_search] does. *)
Lemma run_thread_alone P args w :
  Web.run_thread P 8 (Web.new_thread args) w =
  (Web.at_pc (Web.new_thread args) (Web.Finished (fst (MainPy.api_search P args w))),
   snd (MainPy.api_search P args w)).
Proof.
  rewrite api_search_unfold. rewrite search_split.
  cbn [Web.run_thread Web.thread_step Web.new_thread Web.th_pc Web.at_pc Web.th_args].
  cbv [bind gets modify ret log emit fetch_call]. cbv beta iota.
  cbn [Web.run_thread Web.thread_step Web.new_thread Web.th_pc Web.at_pc Web.th_args
       app_config with_config with_calls with_trace calls clock].
  destruct (Web.search_resume P _ _ _) as [[rs | e] w1]; reflexivity.
Qed.




Lemma in_flight_enter (ts : list Web.Thread) (i : nat) (t t' : Web.Thread) :
  ts !! i = Some t ->
  Web.in_provider t = false ->
  Web.in_provider t' = true ->
  Web.in_flight (<[i := t']> ts) = S (Web.in_flight ts).
Proof.
  unfold Web.in_flight. revert i.
  induction ts as [| x ts IH]; intros i Hi Ht Ht'; [discriminate |].
  destruct i as [| i]; simpl in *.
  - injection Hi as ->.
    rewrite filter_cons_True by exact Ht'.
    rewrite filter_cons_False by (rewrite Ht; discriminate).
    reflexivity.
  - specialize (IH i Hi Ht Ht').
    rewrite !filter_cons. destruct (decide (Web.in_provider x = true)); simpl; lia.
Qed.

(** C4, counterexample: two requests are accepted, each handler executes
    its statements up to the call of the provider, and two search cycles
    are in flight at once. *)
Lemma two_cycles_in_flight :
  ~ (forall (P : Platform) (w : World) (s : World * list Web.Thread),
       Web.reachable P (w, []) s -> (Web.in_flight (snd s) <= 1)%nat).
Proof.
  intros H.
  set (P := Demo.platform Demo.finds_flat).
  set (s := Web.play P
              ([Web.Accept ∅; Web.Accept ∅] ++ repeat (Web.Run 0) 6 ++ repeat (Web.Run 1) 6)
              (Demo.app_started, [])).
  assert (R : Web.reachable P (Demo.app_started, []) s) by (apply play_reachable; constructor).
  specialize (H P Demo.app_started s R).
  vm_compute in H. lia.
Qed.

(** C4, amended: nothing guards the call of [search] in [api_search].
    A handler that has reached this call enters the provider in its next
    step, however many cycles are in flight already: the provider is
    called and the number of cycles in flight grows by one.  No request
    is dropped or queued. *)
Theorem search_call_is_never_dropped (P : Platform) (w : World)
    (ts : list Web.Thread) (i : nat) (t : Web.Thread) (original : Config) :
  ts !! i = Some t ->
  Web.th_pc t = Web.AtSearch original ->
  Web.step P (w, ts)
    (snd (Web.thread_step P t w), <[i := fst (Web.thread_step P t w)]> ts) /\
  Web.in_flight (<[i := fst (Web.thread_step P t w)]> ts) = S (Web.in_flight ts) /\
  calls (snd (Web.thread_step P t w)) = S (calls w).
Proof.
  intros Hi Hpc. split; [| split].
  - apply Web.step_thread; [exact Hi |]. unfold Web.finished. rewrite Hpc. reflexivity.
  - apply (in_flight_enter ts i t); [exact Hi | |].
    + unfold Web.in_provider. rewrite Hpc. reflexivity.
    + unfold Web.thread_step. rewrite Hpc. reflexivity.
  - unfold Web.thread_step. rewrite Hpc. reflexivity.
Qed.

Lemma search_call_is_never_dropped_witness :
  let P := Demo.platform Demo.finds_flat in
  let busy := Web.play P (Web.Accept ∅ :: repeat (Web.Run 0) 6) (Demo.app_started, []) in
  let t := {| Web.th_args := ∅; Web.th_pc := Web.AtSearch (app_config Demo.app_started) |} in
  Web.in_flight (snd busy) = 1%nat /\
  Web.in_flight (<[1%nat := fst (Web.thread_step P t (fst busy))]> (app (snd busy) [t]))
    = 2%nat.
Proof.
  intros P busy t. split; [vm_compute; reflexivity |].
  refine (proj1 (proj2 (search_call_is_never_dropped P (fst busy) (app (snd busy) [t])
                          1 t (app_config Demo.app_started) _ _))).
  - vm_compute. reflexivity.
  - reflexivity.
Defined.

(** ** The deduplicator and the runner of the specification *)

Lemma filter_step_fst previous stamp acc l :
  fst (Design.filter_step previous stamp acc l) =
  (fst acc ++ filter (fun l => previous !! Design.identity l = None) [l])%list.
Proof.
  unfold Design.filter_step.
  destruct (previous !! Design.identity l) eqn:E; simpl.
  - rewrite filter_cons_False by (rewrite E; discriminate).
    rewrite filter_nil. symmetry. apply app_nil_r.
  - rewrite filter_cons_True by exact E. reflexivity.
Qed.

Lemma filter_step_snd previous stamp acc l :
  snd (Design.filter_step previous stamp acc l) = <[Design.identity l := stamp]> (snd acc).
Proof.
  unfold Design.filter_step. destruct (previous !! Design.identity l); reflexivity.
Qed.

Lemma fold_filter_step_fst previous stamp ls acc :
  fst (fold_left (Design.filter_step previous stamp) ls acc) =
  (fst acc ++ filter (fun l => previous !! Design.identity l = None) ls)%list.
Proof.
  revert acc. induction ls as [| l ls IH]; intros acc; simpl.
  - rewrite filter_nil. symmetry. apply app_nil_r.
  - rewrite IH, filter_step_fst.
    rewrite (filter_cons _ l ls).
    destruct (decide (previous !! Design.identity l = None)) as [E | E].
    + rewrite filter_cons_True by exact E. rewrite filter_nil.
      rewrite <- app_assoc. reflexivity.
    + rewrite filter_cons_False by exact E. rewrite filter_nil.
      rewrite app_nil_r. reflexivity.
Qed.

Lemma fold_filter_step_snd previous stamp ls acc (i : string) :
  snd (fold_left (Design.filter_step previous stamp) ls acc) !! i =
  if decide (i ∈ map Design.identity ls) then Some stamp else snd acc !! i.
Proof.
  revert acc. induction ls as [| l ls IH]; intros acc; simpl.
  - destruct (decide (i ∈ [])) as [H | _]; [inversion H | reflexivity].
  - rewrite IH, filter_step_snd.
    destruct (decide (i ∈ map Design.identity ls)) as [H | H].
    + rewrite decide_True by (right; exact H). reflexivity.
    + destruct (decide (Design.identity l = i)) as [E | E].
      * rewrite decide_True by (rewrite E; left). rewrite E.
        apply lookup_insert_eq.
      * rewrite decide_False.
        -- apply lookup_insert_ne. exact E.
        -- intros H'. apply elem_of_cons in H' as [H' | H']; [congruence | contradiction].
Qed.

(** C2: [filterNew] returns as new listings exactly the incoming
    listings whose identity is not a key of the previous index, in
    provider order; in the index it returns, every incoming identity -
    new or already present - carries the capture time of the incoming
    result set and every other identity keeps its stamp.  With the index
    {a, b} and the incoming identities a, b, c the new listings are [c]. *)
Theorem filterNew_spec (previous : gmap string Z) (incoming : Design.ResultSet) :
  fst (Design.filterNew previous incoming)
    = filter (fun l => previous !! Design.identity l = None) (Design.listings incoming) /\
  (forall i : string,
     snd (Design.filterNew previous incoming) !! i =
     if decide (i ∈ map Design.identity (Design.listings incoming))
     then Some (Design.capturedAt incoming)
     else previous !! i) /\
  fst (Design.filterNew Demo.seen_ab Demo.incoming_abc) = [Demo.listing_c].
Proof.
  unfold Design.filterNew. split; [| split].
  - rewrite fold_filter_step_fst. reflexivity.
  - intros i. apply fold_filter_step_snd.
  - vm_compute. reflexivity.
Qed.



(** ** The model at work *)

Example split_districts :
  split "," "Mitte,Friedrichshain" = ["Mitte"; "Friedrichshain"].
Proof. reflexivity. Qed.

Example split_empty : split "," "" = [""].
Proof. reflexivity. Qed.

Example strip_blanks : strip "  Mitte " = "Mitte".
Proof. reflexivity. Qed.

Example lower_true : lower "TRUE" = "true".
Proof. reflexivity. Qed.

Example format_doubled_braces :
  Format.py_format (Demo.platform Demo.finds_flat) "a{{b}}c" [] = Return "a{b}c".
Proof. reflexivity. Qed.

Example format_keyword :
  Format.py_format (Demo.platform Demo.finds_flat) "Found: {count} apartments"
    [("count", PyInt 3)] = Return "Found: 3 apartments".
Proof. vm_compute. reflexivity. Qed.

Example format_css_rule :
  Format.py_format (Demo.platform Demo.finds_flat) "h1 { color: #333; }"
    [("count", PyInt 3)] = Raised (Exn KeyError " color").
Proof. reflexivity. Qed.

Example format_single_brace :
  Format.py_format (Demo.platform Demo.finds_flat) "a } b" []
  = Raised (Exn ValueError "Single '}' encountered in format string").
Proof. reflexivity. Qed.

Example default_configuration :
  criteria_of (app_config Demo.app_started) =
  {| c_min_rooms := 2%float; c_max_rooms := 3%float; c_max_rent := 1200%float;
     c_min_area := None; c_districts := ["Mitte"; "Friedrichshain"];
     c_wbs := false; c_companies := ["inberlinwohnen"] |}.
Proof. vm_compute. reflexivity. Qed.

(** A successful search in once mode: one result, printed and saved. *)
Example run_once_finds_flat :
  let w := snd (MainPy.run_once (Demo.platform Demo.finds_flat) Demo.app_started) in
  fs w !! "results/latest.json" = Some (FJson [Demo.flat]) /\
  fs w !! "results/apartments_20260101_090000.json" = Some (FJson [Demo.flat]).
Proof. vm_compute. split; reflexivity. Qed.

(** A failed search leaves no file and returns the empty list. *)
Example search_fetch_error :
  MainPy.search (Demo.platform Demo.fetch_error) Demo.app_started
  = (Return [],
     snd (MainPy.search (Demo.platform Demo.fetch_error) Demo.app_started)) /\
  fs (snd (MainPy.search (Demo.platform Demo.fetch_error) Demo.app_started)) = ∅.
Proof. vm_compute. split; reflexivity. Qed.

(** The cycle of [run.py] saves the JSON file and then ends with the
    [KeyError] of the report; no report is written. *)
Example run_py_cycle :
  let r := RunPy.search_apartments (Demo.platform Demo.finds_flat) true
             (Demo.start Demo.environment_with_notifications) in
  fst r = Raised (Exn KeyError " font-family") /\
  fs (snd r) !! "results/apartments_20260101_090000.json" = Some (FJson [Demo.flat]) /\
  fs (snd r) !! "results/apartments_20260101_090000.html" = None.
Proof. vm_compute. repeat split; reflexivity. Qed.

(** Served one after the other, two search requests are two cycles. *)
Example two_requests_two_cycles :
  let P := Demo.platform Demo.finds_flat in
  length (fetched (since Demo.app_started
            (snd (MainPy.serve_all P [ReqSearch Demo.ask_900; ReqSearch ∅]
                    Demo.app_started)))) = 2%nat.
Proof. vm_compute. reflexivity. Qed.

(** Two interleaved requests: the second handler copies the configuration
    while the first has it overridden and restores that copy last, so
    the override of the first request stays. *)
Example restore_race_keeps_override :
  let P := Demo.platform Demo.finds_flat in
  let s := Web.play P
             ([Web.Accept Demo.ask_900; Web.Accept ∅]
                ++ repeat (Web.Run 0) 5 ++ repeat (Web.Run 1) 3
                ++ repeat (Web.Run 0) 3 ++ repeat (Web.Run 1) 5)
             (Demo.app_started, []) in
  forallb Web.finished (snd s) = true /\
  PrimFloat.eqb (max_rent (app_config (fst s))) 900%float = true.
Proof. vm_compute. split; reflexivity. Qed.

(** ** What statements leave as it is *)

Lemma m_keeps_ret {A B} (f : World -> B) (a : A) : m_keeps f (ret a).
Proof. intros w. reflexivity. Qed.

Lemma m_keeps_raise {A B} (f : World -> B) e : m_keeps f (@raise A e).
Proof. intros w. reflexivity. Qed.

Lemma m_keeps_gets {A B} (f : World -> B) (g : World -> A) : m_keeps f (gets g).
Proof. intros w. reflexivity. Qed.

Lemma m_keeps_modify {B} (f : World -> B) g :
  (forall w, f (g w) = f w) -> m_keeps f (modify g).
Proof. intros H w. apply H. Qed.

Lemma m_keeps_emit {B} (f : World -> B) e :
  (forall g w, f (with_trace g w) = f w) -> m_keeps f (emit e).
Proof. intros H w. apply H. Qed.

Lemma m_keeps_bind {A B C} (f : World -> C) (m : M A) (k : A -> M B) :
  m_keeps f m -> (forall a, m_keeps f (k a)) -> m_keeps f (bind m k).
Proof.
  intros Hm Hk w. unfold bind. specialize (Hm w).
  destruct (m w) as [[a | e] w1]; simpl in *; [| exact Hm].
  rewrite Hk. exact Hm.
Qed.

Lemma m_keeps_try_except {A C} (f : World -> C) (body : M A) catches handler :
  m_keeps f body -> (forall e, m_keeps f (handler e)) ->
  m_keeps f (try_except body catches handler).
Proof.
  intros Hb Hh w. unfold try_except. specialize (Hb w).
  destruct (body w) as [[a | e] w1]; simpl in *; [exact Hb |].
  destruct (catches e); [| exact Hb]. rewrite Hh. exact Hb.
Qed.

Lemma m_keeps_try_except2 {A C} (f : World -> C) (body : M A) c1 h1 c2 h2 :
  m_keeps f body -> (forall e, m_keeps f (h1 e)) -> (forall e, m_keeps f (h2 e)) ->
  m_keeps f (try_except2 body c1 h1 c2 h2).
Proof.
  intros Hb H1 H2 w. unfold try_except2. specialize (Hb w).
  destruct (body w) as [[a | e] w1]; simpl in *; [exact Hb |].
  destruct (c1 e); [rewrite H1; exact Hb |].
  destruct (c2 e); [rewrite H2; exact Hb | exact Hb].
Qed.

Ltac keeps_step :=
  first
    [ apply m_keeps_ret
    | apply m_keeps_raise
    | apply m_keeps_gets
    | apply m_keeps_emit; intros; reflexivity
    | apply m_keeps_modify; intros; reflexivity
    | apply m_keeps_bind; [| intros ?]
    | apply m_keeps_try_except; [| intros ?]
    | apply m_keeps_try_except2; [| intros ? | intros ?]
    | match goal with
      | |- m_keeps _ (match ?x with _ => _ end) => destruct x
      | |- m_keeps _ (if ?x then _ else _) => destruct x
      end ].

Ltac keeps_all := repeat first [keeps_step | adds_prims].

Lemma search_keeps_config P : m_keeps app_config (MainPy.search P).
Proof.
  unfold MainPy.search, MainPy.search_body, MainPy.search_failed, MainPy.save_results.
  keeps_all.
Qed.

Lemma search_keeps_env P : m_keeps env (MainPy.search P).
Proof.
  unfold MainPy.search, MainPy.search_body, MainPy.search_failed, MainPy.save_results.
  keeps_all.
Qed.

Lemma search_resume_keeps_calls P n c : m_keeps calls (Web.search_resume P n c).
Proof.
  unfold Web.search_resume, MainPy.search_failed, MainPy.save_results.
  keeps_all.
Qed.

Lemma search_calls_once P w : calls (snd (MainPy.search P w)) = S (calls w).
Proof. rewrite search_split. rewrite search_resume_keeps_calls. reflexivity. Qed.

(** X1: whatever the provider and the file system do, and however it
    ends, a call of [search] calls the provider exactly once and leaves
    [self.config] and the environment as they were. *)
Theorem search_leaves_configuration (P : Platform) (w : World) :
  calls (snd (MainPy.search P w)) = S (calls w) /\
  app_config (snd (MainPy.search P w)) = app_config w /\
  env (snd (MainPy.search P w)) = env w.
Proof.
  split; [apply search_calls_once |].
  split; [apply search_keeps_config | apply search_keeps_env].
Qed.

(** ** main.py: what [search] and [save_results] do to the files *)

Lemma timestamped_not_latest ts :
  "results/apartments_" ++ ts ++ ".json" <> "results/latest.json".
Proof. simpl. discriminate. Qed.



(** X3: when the provider returns listings that can be serialised and
    the file system does not fail, [search] returns exactly these
    listings, in their order, and both the file with the time stamp and
    [results/latest.json] hold them. *)
Theorem search_saves_what_it_finds (P : Platform) (w : World) (rs : list Listing) :
  snd (provider P (calls w) (criteria_of (app_config w))) = Return rs ->
  forallb listing_serializable rs = true ->
  (forall path, io_fault P (ios w) path = None) ->
  (forall path, io_fault P (S (ios w)) path = None) ->
  (forall path, io_fault P (S (S (ios w))) path = None) ->
  fst (MainPy.search P w) = Return rs /\
  fs (snd (MainPy.search P w)) !! "results/latest.json" = Some (FJson rs) /\
  exists ts,
    fs (snd (MainPy.search P w)) !! ("results/apartments_" ++ ts ++ ".json")
      = Some (FJson rs).
Proof.
  intros Hp Hs H0 H1 H2.
  unfold MainPy.search, MainPy.search_body, MainPy.search_failed, MainPy.save_results,
    makedirs, dump_json, io_op, timestamp.
  run_monad. simpl. rewrite Hp. simpl. rewrite H0. simpl. rewrite H1. simpl.
  rewrite Hs. simpl. rewrite H2. simpl.
  split; [reflexivity |]. split; [apply lookup_insert_eq |].
  eexists. rewrite lookup_insert_ne by (apply not_eq_sym; apply timestamped_not_latest).
  apply lookup_insert_eq.
Qed.

Lemma search_saves_what_it_finds_witness :
  fst (MainPy.search (Demo.platform Demo.finds_flat) Demo.app_started)
    = Return [Demo.flat].
Proof.
  refine (proj1 (search_saves_what_it_finds (Demo.platform Demo.finds_flat)
                   Demo.app_started [Demo.flat] _ _ _ _ _)).
  - reflexivity.
  - vm_compute. reflexivity.
  - intros path. reflexivity.
  - intros path. reflexivity.
  - intros path. reflexivity.
Defined.

(** X4: listings with a value [json.dump] cannot serialise are lost to
    the caller: [search] returns the empty list, the file with the time
    stamp is left unfinished and [results/latest.json] is not touched. *)
Theorem unserialisable_results_are_dropped (P : Platform) (w : World)
    (rs : list Listing) :
  snd (provider P (calls w) (criteria_of (app_config w))) = Return rs ->
  forallb listing_serializable rs = false ->
  (forall path, io_fault P (ios w) path = None) ->
  (forall path, io_fault P (S (ios w)) path = None) ->
  fst (MainPy.search P w) = Return [] /\
  fs (snd (MainPy.search P w)) !! "results/latest.json" = fs w !! "results/latest.json" /\
  exists ts,
    fs (snd (MainPy.search P w)) !! ("results/apartments_" ++ ts ++ ".json")
      = Some FPartial.
Proof.
  intros Hp Hs H0 H1.
  unfold MainPy.search, MainPy.search_body, MainPy.search_failed, MainPy.save_results,
    makedirs, dump_json, io_op, timestamp.
  run_monad. simpl. rewrite Hp. simpl. rewrite H0. simpl. rewrite H1. simpl.
  rewrite Hs. simpl.
  split; [reflexivity |].
  split; [apply lookup_insert_ne; apply timestamped_not_latest |].
  eexists. apply lookup_insert_eq.
Qed.

Lemma unserialisable_results_are_dropped_witness :
  fst (MainPy.search (Demo.platform Cases.finds_odd) Demo.app_started) = Return [].
Proof.
  refine (proj1 (unserialisable_results_are_dropped (Demo.platform Cases.finds_odd)
                   Demo.app_started [Cases.odd] _ _ _ _)).
  - reflexivity.
  - vm_compute. reflexivity.
  - intros path. reflexivity.
  - intros path. reflexivity.
Defined.

(** X5: when the call of the provider raises, [search] performs no file
    system operation: no file is opened or changed, whether the exception
    is absorbed or passed on. *)
Theorem failed_fetch_touches_no_file (P : Platform) (w : World) (e : exn) :
  snd (provider P (calls w) (criteria_of (app_config w))) = Raised e ->
  fs (snd (MainPy.search P w)) = fs w /\
  ios (snd (MainPy.search P w)) = ios w /\
  written (since w (snd (MainPy.search P w))) = [].
Proof.
  intros Hp.
  unfold MainPy.search, MainPy.search_body, MainPy.search_failed.
  run_monad. simpl. rewrite Hp. simpl.
  destruct (is_Exception e); simpl.
  - split; [reflexivity |]. split; [reflexivity |]. since_now. reflexivity.
  - split; [reflexivity |]. split; [reflexivity |]. since_now. reflexivity.
Qed.

Lemma failed_fetch_touches_no_file_witness :
  fs (snd (MainPy.search (Demo.platform Demo.fetch_error) Demo.app_started))
    = fs Demo.app_started.
Proof.
  refine (proj1 (failed_fetch_touches_no_file (Demo.platform Demo.fetch_error)
                   Demo.app_started (Exn FetchError "provider unreachable") _)).
  reflexivity.
Defined.

(** X6: [api_latest] answers with the empty list when no results were
    saved yet, fails with a decoding error - which it does not catch -
    when [results/latest.json] is an unfinished file, and never changes a
    file. *)
Theorem api_latest_cases (P : Platform) (w : World) :
  (fs w !! "results/latest.json" = None ->
   io_fault P (ios w) "results/latest.json" = None ->
   fst (MainPy.api_latest P w) = Return []) /\
  (fs w !! "results/latest.json" = Some FPartial ->
   io_fault P (ios w) "results/latest.json" = None ->
   fst (MainPy.api_latest P w) = Raised (Exn JSONDecodeError "results/latest.json")) /\
  fs (snd (MainPy.api_latest P w)) = fs w.
Proof.
  unfold MainPy.api_latest, load_json, io_op. run_monad. simpl.
  split; [| split].
  - intros Hf Hio. rewrite Hio. simpl. rewrite Hf. reflexivity.
  - intros Hf Hio. rewrite Hio. simpl. rewrite Hf. reflexivity.
  - destruct (io_fault P (ios w) "results/latest.json") as [e |]; simpl.
    + destruct (is_FileNotFoundError e); reflexivity.
    + destruct (fs w !! "results/latest.json") as [[doc | s |] |]; simpl;
        try reflexivity.
      destruct (default_decode P doc) as [d | e]; simpl; [reflexivity |].
      destruct (is_FileNotFoundError e); reflexivity.
Qed.

Lemma api_latest_cases_witness :
  fst (MainPy.api_latest (Demo.platform Demo.finds_flat) Demo.app_started) = Return [] /\
  fst (MainPy.api_latest (Demo.platform Demo.finds_flat)
         (with_fs (insert "results/latest.json" FPartial) Demo.app_started))
    = Raised (Exn JSONDecodeError "results/latest.json").
Proof.
  split.
  - apply (proj1 (api_latest_cases (Demo.platform Demo.finds_flat) Demo.app_started));
      reflexivity.
  - apply (proj1 (proj2 (api_latest_cases (Demo.platform Demo.finds_flat)
                           (with_fs (insert "results/latest.json" FPartial)
                              Demo.app_started)))).
    + vm_compute. reflexivity.
    + reflexivity.
Defined.

(** ** main.py: the search route *)

Lemma set_max_rent_same c : set_max_rent (max_rent c) c = c.
Proof. destruct c. reflexivity. Qed.

Lemma set_min_rooms_same c : set_min_rooms (min_rooms c) c = c.
Proof. destruct c. reflexivity. Qed.

Lemma search_raises_outside_Exception P w e :
  fst (MainPy.search P w) = Raised e -> is_Exception e = false.
Proof.
  rewrite search_unfold.
  destruct (MainPy.search_body P _) as [[rs | e'] w1]; simpl; [discriminate |].
  destruct (is_Exception e') eqn:E.
  - rewrite search_failed_returns. discriminate.
  - simpl. intros [= <-]. exact E.
Qed.

(** X7: a request to [/api/search] that names neither [max_rent] nor
    [min_rooms], or gives values that are not numbers, is not rejected:
    it searches with the configured criteria. *)
Theorem api_search_defaults (P : Platform) (args : gmap string string) (w : World) :
  match args !! "max_rent" with Some s => py_float P s = None | None => True end ->
  match args !! "min_rooms" with Some s => py_float P s = None | None => True end ->
  fetched (since w (snd (MainPy.api_search P args w))) = [criteria_of (app_config w)].
Proof.
  intros Hr Hm. rewrite api_search_unfold.
  assert (Er : MainPy.arg_float P args "max_rent" (max_rent (app_config w))
               = max_rent (app_config w)).
  { unfold MainPy.arg_float. destruct (args !! "max_rent"); [rewrite Hr |]; reflexivity. }
  assert (Em : MainPy.arg_float P args "min_rooms" (min_rooms (app_config w))
               = min_rooms (app_config w)).
  { unfold MainPy.arg_float. destruct (args !! "min_rooms"); [rewrite Hm |]; reflexivity. }
  rewrite Er, Em.
  set (w_over := with_config _ (with_config _ w)).
  assert (Ec : app_config w_over = app_config w).
  { unfold w_over. simpl. rewrite set_max_rent_same. apply set_min_rooms_same. }
  pose proof (search_fetched P w_over) as F. rewrite Ec in F.
  destruct (MainPy.search P w_over) as [[rs | e] w1]; simpl in *;
    (transitivity (fetched (since w_over w1));
      [apply f_equal; apply since_traces; reflexivity | exact F]).
Qed.

Lemma api_search_defaults_witness :
  fetched (since Demo.app_started
             (snd (MainPy.api_search (Demo.platform Demo.finds_flat)
                     (<["max_rent" := "cheap"]> ∅) Demo.app_started)))
    = [criteria_of (app_config Demo.app_started)].
Proof.
  apply (api_search_defaults (Demo.platform Demo.finds_flat)
           (<["max_rent" := "cheap"]> ∅) Demo.app_started).
  - vm_compute. reflexivity.
  - vm_compute. exact I.
Defined.

(** X8: [api_search] restores the configuration only after a search that
    returns.  When the search is ended by an exception - which is then
    one outside [Exception], such as [KeyboardInterrupt] - the values of
    the request stay in [self.config]. *)
Theorem interrupted_api_search_keeps_override (P : Platform)
    (args : gmap string string) (w : World) (e : exn) :
  fst (MainPy.api_search P args w) = Raised e ->
  is_Exception e = false /\
  app_config (snd (MainPy.api_search P args w)) =
    set_min_rooms (MainPy.arg_float P args "min_rooms" (min_rooms (app_config w)))
      (set_max_rent (MainPy.arg_float P args "max_rent" (max_rent (app_config w)))
         (app_config w)).
Proof.
  rewrite api_search_unfold.
  set (w_over := with_config _ (with_config _ w)).
  pose proof (search_keeps_config P w_over) as K.
  pose proof (search_raises_outside_Exception P w_over) as R.
  destruct (MainPy.search P w_over) as [[rs | e'] w1]; simpl in *; [discriminate |].
  intros [= <-]. split; [apply R; reflexivity | exact K].
Qed.

Lemma interrupted_api_search_keeps_override_witness :
  PrimFloat.eqb
    (max_rent (app_config (snd (MainPy.api_search (Demo.platform Demo.interrupted)
                                  Demo.ask_900 Demo.app_started))))
    900%float = true.
Proof.
  rewrite (proj2 (interrupted_api_search_keeps_override (Demo.platform Demo.interrupted)
                    Demo.ask_900 Demo.app_started (Exn KeyboardInterrupt "") eq_refl)).
  vm_compute. reflexivity.
Defined.

(** ** main.py: the loops of the worker and of the scheduler *)

Lemma worker_loop_unfold P n w :
  MainPy.worker_loop P (S n) w =
  match MainPy.worker_pass P w with
  | (Return true, w1) => MainPy.worker_loop P n w1
  | (Return false, w1) => (Return Stopped, w1)
  | (Raised e, w1) => (Raised e, w1)
  end.
Proof.
  simpl. unfold bind at 1.
  destruct (MainPy.worker_pass P w) as [[[|] | e] w1]; reflexivity.
Qed.

(** X9: Control-C stops the worker without an exception: when
    [KeyboardInterrupt] is raised while the provider runs, or while the
    worker sleeps after a search, [run_worker] leaves its loop and
    returns, and the worker does not sleep again. *)
Theorem worker_stops_on_KeyboardInterrupt (P : Platform) (w : World) (passes : nat) :
  (forall e,
     snd (provider P (calls w) (criteria_of (app_config w))) = Raised e ->
     is_KeyboardInterrupt e = true ->
     fst (MainPy.worker_loop P (S passes) w) = Return Stopped /\
     waits (since w (snd (MainPy.worker_loop P (S passes) w))) = []) /\
  (forall rs t e,
     fst (MainPy.search P w) = Return rs ->
     sleep_interrupt P (sleeps (snd (MainPy.search P w))) 7200 = Some (t, e) ->
     is_KeyboardInterrupt e = true ->
     fst (MainPy.worker_loop P (S passes) w) = Return Stopped /\
     waits (since (snd (MainPy.search P w)) (snd (MainPy.worker_loop P (S passes) w)))
       = [7200]).
Proof.
  split.
  - intros e Hp He.
    assert (Hx : is_Exception e = false).
    { unfold is_KeyboardInterrupt, is_Exception in *. destruct (exn_cls e); congruence. }
    rewrite worker_loop_unfold, worker_pass_unfold.
    unfold MainPy.search, MainPy.search_body, MainPy.search_failed, worker_except.
    run_monad. simpl. rewrite Hp. simpl. rewrite Hx. simpl. rewrite He. simpl.
    split; [reflexivity |]. since_now. reflexivity.
  - intros rs t e S Hs He.
    rewrite worker_loop_unfold, worker_pass_unfold.
    destruct (MainPy.search P w) as [[rs' | e'] w1]; simpl in S, Hs; [| discriminate].
    rewrite (sleep_cut _ _ _ _ _ Hs). unfold worker_except. rewrite He. simpl.
    split; [reflexivity |]. since_now. reflexivity.
Qed.

Lemma worker_stops_on_KeyboardInterrupt_witness :
  fst (MainPy.worker_loop (Demo.platform Demo.interrupted) 3 Demo.app_started)
    = Return Stopped /\
  fst (MainPy.worker_loop
         (Cases.platform Demo.finds_flat Cases.no_fault Cases.control_c Cases.one_due)
         3 Demo.app_started)
    = Return Stopped.
Proof.
  split.
  - apply (proj1 (worker_stops_on_KeyboardInterrupt (Demo.platform Demo.interrupted)
                    Demo.app_started 2) (Exn KeyboardInterrupt "")); reflexivity.
  - refine (proj1 (proj2 (worker_stops_on_KeyboardInterrupt
                            (Cases.platform Demo.finds_flat Cases.no_fault Cases.control_c
                               Cases.one_due)
                            Demo.app_started 2)
                     [Demo.flat] 10 (Exn KeyboardInterrupt "") _ _ _)).
    + vm_compute. reflexivity.
    + reflexivity.
    + reflexivity.
Defined.

(** When the provider and the file system raise nothing outside
    [Exception], the body of [search] raises nothing outside it. *)
Lemma search_body_raises_inside P w e :
  (forall k c e', snd (provider P k c) = Raised e' -> is_Exception e' = true) ->
  (forall k path e', io_fault P k path = Some e' -> is_Exception e' = true) ->
  fst (MainPy.search_body P w) = Raised e -> is_Exception e = true.
Proof.
  intros Hp Hio.
  unfold MainPy.search_body, MainPy.save_results, makedirs, dump_json, io_op, timestamp.
  run_monad. simpl.
  destruct (snd (provider P (calls w) (criteria_of (app_config w)))) as [rs | e0] eqn:Ep;
    simpl.
  2: { intros [= <-]. exact (Hp _ _ _ Ep). }
  destruct (io_fault P (ios w) "results") as [e0 |] eqn:E0; simpl.
  { intros [= <-]. exact (Hio _ _ _ E0). }
  match goal with
  | |- context [io_fault P (S (ios w)) ?p] =>
      destruct (io_fault P (S (ios w)) p) as [e0 |] eqn:E1; simpl
  end.
  { intros [= <-]. exact (Hio _ _ _ E1). }
  destruct (forallb listing_serializable rs); simpl.
  2: { intros [= <-]. reflexivity. }
  destruct (io_fault P (S (S (ios w))) "results/latest.json") as [e0 |] eqn:E2; simpl.
  { intros [= <-]. exact (Hio _ _ _ E2). }
  discriminate.
Qed.

Lemma search_returns_inside P w :
  (forall k c e', snd (provider P k c) = Raised e' -> is_Exception e' = true) ->
  (forall k path e', io_fault P k path = Some e' -> is_Exception e' = true) ->
  exists rs, fst (MainPy.search P w) = Return rs.
Proof.
  intros Hp Hio. rewrite search_unfold.
  pose proof (search_body_raises_inside P
                (snd (log INFO "Starting apartment search..." w))) as B.
  destruct (MainPy.search_body P _) as [[rs | e] w1]; simpl in *; [eauto |].
  rewrite (B e Hp Hio eq_refl). rewrite search_failed_returns. eauto.
Qed.

Lemma search_keeps_sleeps P : m_keeps sleeps (MainPy.search P).
Proof.
  unfold MainPy.search, MainPy.search_body, MainPy.search_failed, MainPy.save_results.
  keeps_all.
Qed.

Lemma search_keeps_polls P : m_keeps polls (MainPy.search P).
Proof.
  unfold MainPy.search, MainPy.search_body, MainPy.search_failed, MainPy.save_results.
  keeps_all.
Qed.

(** X10: as long as the provider and the file system raise nothing
    outside [Exception] and no sleep is interrupted, the worker never
    leaves its loop, whatever fails: after any number of passes it is
    still running and has called the provider once per pass. *)
Theorem worker_keeps_running (P : Platform) (passes : nat) (w : World) :
  (forall k c e, snd (provider P k c) = Raised e -> is_Exception e = true) ->
  (forall k path e, io_fault P k path = Some e -> is_Exception e = true) ->
  (forall k, sleep_interrupt P k 7200 = None) ->
  fst (MainPy.worker_loop P passes w) = Return StillRunning /\
  calls (snd (MainPy.worker_loop P passes w)) = (calls w + passes)%nat.
Proof.
  intros Hp Hio Hs. revert w.
  induction passes as [| n IH]; intros w.
  - simpl. split; [reflexivity | lia].
  - rewrite worker_loop_unfold, worker_pass_unfold.
    destruct (search_returns_inside P w Hp Hio) as [rs R].
    pose proof (search_calls_once P w) as C.
    destruct (MainPy.search P w) as [[rs' | e'] w1]; simpl in R, C; [| discriminate].
    rewrite (sleep_through _ _ _ (Hs (sleeps w1))).
    destruct (IH (with_clock (Z.add 7200)
                    (with_sleeps S (with_trace (cons (clock w1, EvSleep 7200)) w1))))
      as [I1 I2].
    split; [exact I1 |]. rewrite I2. simpl. lia.
Qed.

Lemma worker_keeps_running_witness :
  fst (MainPy.worker_loop (Demo.platform Demo.fetch_error) 3 Demo.app_started)
    = Return StillRunning /\
  calls (snd (MainPy.worker_loop (Demo.platform Demo.fetch_error) 3 Demo.app_started))
    = (calls Demo.app_started + 3)%nat.
Proof.
  apply (worker_keeps_running (Demo.platform Demo.fetch_error) 3 Demo.app_started).
  - intros k c e [= <-]. reflexivity.
  - intros k path e H. discriminate H.
  - intros k. reflexivity.
Defined.

Lemma repeat_m_S k (m : M unit) w :
  repeat_m (S k) m w =
  match m w with
  | (Return _, w1) => repeat_m k m w1
  | (Raised e, w1) => (Raised e, w1)
  end.
Proof. simpl. unfold bind at 1. destruct (m w) as [[[] | e] w1]; reflexivity. Qed.

Lemma search_job_unfold P w :
  (MainPy.search P ;;; ret tt) w =
  match MainPy.search P w with
  | (Return _, w1) => (Return tt, w1)
  | (Raised e, w1) => (Raised e, w1)
  end.
Proof. unfold bind. destruct (MainPy.search P w) as [[rs | e] w1]; reflexivity. Qed.

Lemma repeat_search_inside P k w :
  (forall n c e, snd (provider P n c) = Raised e -> is_Exception e = true) ->
  (forall n path e, io_fault P n path = Some e -> is_Exception e = true) ->
  fst (repeat_m k (MainPy.search P ;;; ret tt) w) = Return tt /\
  calls (snd (repeat_m k (MainPy.search P ;;; ret tt) w)) = (calls w + k)%nat /\
  sleeps (snd (repeat_m k (MainPy.search P ;;; ret tt) w)) = sleeps w.
Proof.
  intros Hp Hio. revert w. induction k as [| k IH]; intros w.
  - simpl. repeat split. lia.
  - rewrite repeat_m_S, search_job_unfold.
    destruct (search_returns_inside P w Hp Hio) as [rs R].
    pose proof (search_calls_once P w) as C.
    pose proof (search_keeps_sleeps P w) as Sl.
    destruct (MainPy.search P w) as [[rs' | e'] w1]; simpl in R, C, Sl; [| discriminate].
    destruct (IH w1) as (I1 & I2 & I3).
    split; [exact I1 |]. split; [rewrite I2; lia | rewrite I3; exact Sl].
Qed.

Lemma scheduler_pass_unfold P w :
  MainPy.scheduler_pass P w =
  match repeat_m (Nat.min (jobs_due P (polls w)) 4) (MainPy.search P ;;; ret tt)
          (with_polls S w) with
  | (Return _, w1) =>
      match sleep P 60 w1 with
      | (Return _, w2) => (Return true, w2)
      | (Raised e, w2) =>
          if is_KeyboardInterrupt e
          then (Return false, with_trace (cons (clock w2, EvLog INFO "Scheduler stopped")) w2)
          else (Raised e, w2)
      end
  | (Raised e, w1) =>
      if is_KeyboardInterrupt e
      then (Return false, with_trace (cons (clock w1, EvLog INFO "Scheduler stopped")) w1)
      else (Raised e, w1)
  end.
Proof.
  unfold MainPy.scheduler_pass, run_pending, try_except.
  unfold bind at 1. unfold bind at 1. cbv [gets]. cbv beta iota.
  unfold bind at 1. cbv [modify]. cbv beta iota.
  destruct (repeat_m _ _ (with_polls S w)) as [[[] | e] w1]; [| reflexivity].
  unfold bind at 1.
  destruct (sleep P 60 w1) as [[[] | e] w2]; reflexivity.
Qed.

(** X11: the scheduler of [main.py] merges no triggers.  When several of
    its four triggers are due at the same poll, one pass of its loop
    runs one search for each of them, one after the other, and then
    goes on. *)
Theorem scheduler_runs_every_due_trigger (P : Platform) (w : World) :
  (forall k c e, snd (provider P k c) = Raised e -> is_Exception e = true) ->
  (forall k path e, io_fault P k path = Some e -> is_Exception e = true) ->
  sleep_interrupt P (sleeps w) 60 = None ->
  fst (MainPy.scheduler_pass P w) = Return true /\
  calls (snd (MainPy.scheduler_pass P w))
    = (calls w + Nat.min (jobs_due P (polls w)) 4)%nat.
Proof.
  intros Hp Hio Hs. rewrite scheduler_pass_unfold.
  destruct (repeat_search_inside P (Nat.min (jobs_due P (polls w)) 4)
              (with_polls S w) Hp Hio) as (R1 & R2 & R3).
  destruct (repeat_m _ _ (with_polls S w)) as [[[] | e] w1]; simpl in R1, R2, R3;
    [| discriminate].
  rewrite sleep_through by (rewrite R3; exact Hs).
  simpl. split; [reflexivity | exact R2].
Qed.

Lemma scheduler_runs_every_due_trigger_witness :
  calls (snd (MainPy.scheduler_pass
                (Cases.platform Demo.finds_flat Cases.no_fault Cases.no_cut Cases.two_due)
                Demo.app_started))
    = (calls Demo.app_started + 2)%nat.
Proof.
  refine (proj2 (scheduler_runs_every_due_trigger
                   (Cases.platform Demo.finds_flat Cases.no_fault Cases.no_cut Cases.two_due)
                   Demo.app_started _ _ _)).
  - intros k c e H. discriminate H.
  - intros k path e H. discriminate H.
  - reflexivity.
Defined.

(** ** Reading the configuration *)

Ltac split_parses :=
  repeat match goal with
    | |- context [match py_float ?P ?s with _ => _ end] =>
        destruct (py_float P s) eqn:?; simpl
    | |- context [match py_int ?P ?s with _ => _ end] =>
        destruct (py_int P s) eqn:?; simpl
    | |- context [match ?m !! "MIN_AREA" with _ => _ end] =>
        destruct (m !! "MIN_AREA") as [[| ? ?] |] eqn:?; simpl
    end.

(** X12: [load_config] fails only with [ValueError], and a constructor
    that fails has not touched [self.config] and has called no provider:
    the configuration is assigned in one piece after every variable has
    been read.  A [MAX_RENT] that is not a number is such a failure. *)
Theorem load_config_all_or_nothing (P : Platform) (w : World) :
  (forall e,
     fst (MainPy.load_config P w) = Raised e ->
     exn_cls e = ValueError /\
     app_config (snd (MainPy.load_config P w)) = app_config w /\
     calls (snd (MainPy.load_config P w)) = calls w) /\
  (forall s,
     env w !! "MAX_RENT" = Some s -> py_float P s = None ->
     exists e, fst (MainPy.load_config P w) = Raised e).
Proof.
  split.
  - intros e. unfold MainPy.load_config, getenv_default, getenv, to_float, to_int.
    run_monad. simpl. split_parses;
      try discriminate; intros [= <-]; repeat split.
  - intros s Hs Hf. unfold MainPy.load_config, getenv_default, getenv, to_float, to_int.
    run_monad. simpl. rewrite Hs. simpl. rewrite Hf. simpl. eauto.
Qed.

Lemma load_config_all_or_nothing_witness :
  exists e,
    fst (MainPy.load_config (Demo.platform Demo.finds_flat)
           (Demo.start Cases.rent_not_a_number)) = Raised e /\
    exn_cls e = ValueError.
Proof.
  destruct (proj2 (load_config_all_or_nothing (Demo.platform Demo.finds_flat)
                     (Demo.start Cases.rent_not_a_number)) "cheap" eq_refl eq_refl)
    as [e He].
  exists e. split; [exact He |].
  exact (proj1 (proj1 (load_config_all_or_nothing (Demo.platform Demo.finds_flat)
                         (Demo.start Cases.rent_not_a_number)) e He)).
Defined.

Lemma load_config_reads P w w' :
  MainPy.load_config P w = (Return tt, w') ->
  env w' = env w /\
  min_area (app_config w') = min_area_of P (env w).
Proof.
  unfold MainPy.load_config, getenv_default, getenv, to_float, to_int, min_area_of.
  run_monad. simpl. split_parses;
    try discriminate; intros [= <-]; simpl; split; try reflexivity.
  match goal with
  | H : env w !! "MIN_AREA" = Some _, H' : py_float P _ = Some ?f |- Some ?f = _ =>
      rewrite H in H'; symmetry; exact H'
  end.
Qed.

(** X13: a constructor that succeeds leaves the environment as it is and
    takes the area bound from [MIN_AREA] only when that variable is set
    to a non-empty text; unset or empty, there is no bound and nothing is
    parsed. *)
Theorem load_config_min_area (P : Platform) (w w' : World) :
  MainPy.load_config P w = (Return tt, w') ->
  env w' = env w /\
  min_area (app_config w') = min_area_of P (env w).
Proof. apply load_config_reads. Qed.

Lemma load_config_min_area_witness :
  min_area (app_config (snd (MainPy.load_config (Demo.platform Demo.finds_flat)
                                (Demo.start (<["MIN_AREA" := ""]> ∅)))))
    = None.
Proof.
  refine (eq_trans
            (proj2 (load_config_min_area (Demo.platform Demo.finds_flat)
                      (Demo.start (<["MIN_AREA" := ""]> ∅)) _ _))
            _).
  - vm_compute. reflexivity.
  - vm_compute. reflexivity.
Defined.

Ltac split_reads :=
  repeat match goal with
    | |- context [match py_float ?P ?s with _ => _ end] =>
        destruct (py_float P s) eqn:?; simpl
    | |- context [match py_int ?P ?s with _ => _ end] =>
        destruct (py_int P s) eqn:?; simpl
    | |- context [match ?m !! "MIN_AREA" with _ => _ end] =>
        destruct (m !! "MIN_AREA") as [[| ? ?] |] eqn:?; simpl
    | |- context [match ?m !! "MIN_ROOMS" with _ => _ end] =>
        destruct (m !! "MIN_ROOMS") eqn:?; simpl
    | |- context [match ?m !! "MAX_ROOMS" with _ => _ end] =>
        destruct (m !! "MAX_ROOMS") eqn:?; simpl
    | |- context [match ?m !! "MAX_RENT" with _ => _ end] =>
        destruct (m !! "MAX_RENT") eqn:?; simpl
    end.

(** The text a variable gives, or the default. *)
Lemma load_config_lists P w w1 :
  MainPy.load_config P w = (Return tt, w1) ->
  districts (app_config w1)
    = split "," (match env w !! "DISTRICTS" with
                 | Some s => s | None => "Mitte,Friedrichshain" end) /\
  companies (app_config w1)
    = split "," (match env w !! "COMPANIES" with
                 | Some s => s | None => "inberlinwohnen" end) /\
  wbs (app_config w1)
    = String.eqb (lower (match env w !! "WBS_REQUIRED" with
                         | Some s => s | None => "false" end)) "true".
Proof.
  unfold MainPy.load_config, getenv_default, getenv, to_float, to_int.
  run_monad. simpl. split_parses;
    try discriminate; intros [= <-]; simpl; repeat split.
Qed.

Lemma load_search_params_lists P w p w2 :
  RunPy.load_search_params P w = (Return p, w2) ->
  RunPy.sp_districts p
    = map strip (split "," (match env w !! "DISTRICTS" with
                            | Some s => s | None => "Mitte,Friedrichshain" end)) /\
  RunPy.sp_companies p
    = map strip (split "," (match env w !! "COMPANIES" with
                            | Some s => s | None => "inberlinwohnen" end)) /\
  RunPy.sp_wbs_required p
    = String.eqb (lower (match env w !! "WBS_REQUIRED" with
                         | Some s => s | None => "false" end)) "true" /\
  RunPy.sp_min_area p = min_area_of P (env w).
Proof.
  unfold RunPy.load_search_params, RunPy.getenv_float, getenv_default, getenv,
    to_float, min_area_of.
  run_monad. simpl. split_reads;
    try discriminate; intros [= <- <-]; simpl; repeat split; try reflexivity;
    congruence.
Qed.

(** X14: the two programs read the districts, the companies, the WBS
    flag and the area bound from the same variables and agree on them,
    up to one difference: [run.py] strips the blanks around the names of
    districts and companies, [main.py] keeps them. *)
Theorem both_programs_read_alike (P : Platform) (w w1 w2 : World)
    (p : RunPy.SearchParameters) :
  MainPy.load_config P w = (Return tt, w1) ->
  RunPy.load_search_params P w = (Return p, w2) ->
  RunPy.sp_districts p = map strip (districts (app_config w1)) /\
  RunPy.sp_companies p = map strip (companies (app_config w1)) /\
  RunPy.sp_wbs_required p = wbs (app_config w1) /\
  RunPy.sp_min_area p = min_area (app_config w1).
Proof.
  intros H1 H2.
  destruct (load_config_lists P w w1 H1) as (D1 & C1 & W1).
  destruct (load_search_params_lists P w p w2 H2) as (D2 & C2 & W2 & A2).
  pose proof (load_config_reads P w w1 H1) as [_ A1].
  rewrite D1, C1, W1, A1. repeat split; assumption.
Qed.

Lemma both_programs_read_alike_witness :
  let P := Demo.platform Demo.finds_flat in
  let w := Demo.start Cases.spaced_districts in
  RunPy.sp_districts Cases.spaced_params
    = map strip (districts (app_config (snd (MainPy.load_config P w)))).
Proof.
  intros P w.
  assert (H1 : MainPy.load_config P w = (Return tt, snd (MainPy.load_config P w)))
    by (vm_compute; reflexivity).
  assert (H2 : RunPy.load_search_params P w
               = (Return Cases.spaced_params, snd (RunPy.load_search_params P w)))
    by (vm_compute; reflexivity).
  exact (proj1 (both_programs_read_alike P w _ _ _ H1 H2)).
Defined.

Example districts_with_blanks :
  districts (app_config (snd (MainPy.load_config (Demo.platform Demo.finds_flat)
                                (Demo.start Cases.spaced_districts))))
    = ["Mitte"; " Pankow"] /\
  (match fst (RunPy.load_search_params (Demo.platform Demo.finds_flat)
                (Demo.start Cases.spaced_districts)) with
   | Return p => RunPy.sp_districts p
   | Raised _ => []
   end) = ["Mitte"; "Pankow"].
Proof. vm_compute. split; reflexivity. Qed.

(** ** main.py: choosing the mode *)

Lemma run_unknown_mode P m requests passes w :
  m <> "" -> ~ In m MainPy.mode_choices ->
  MainPy.run P (Some m) requests passes w = MainPy.run P (Some "web") requests passes w.
Proof.
  intros Hne Hin. destruct m as [| a m]; [congruence |].
  assert (E : forall c, In c MainPy.mode_choices -> String.eqb (String a m) c = false).
  { intros c Hc. apply String.eqb_neq. intros H. subst c. exact (Hin Hc). }
  unfold MainPy.run. cbv [bind gets log emit modify]. cbv beta iota.
  rewrite (E "web") by (simpl; auto).
  rewrite (E "worker") by (simpl; auto).
  rewrite (E "scheduler") by (simpl; auto).
  rewrite (E "once") by (simpl; auto).
  reflexivity.
Qed.

(** X15: a [MODE] in the environment that is none of the four modes is
    not rejected: without [--mode] on the command line the process runs
    the web server, exactly as with [--mode web]. *)
Theorem unknown_mode_runs_web_server (P : Platform) (w : World) (m : string)
    (arg_port : option Z) (requests : list Request) (passes : nat) :
  env w !! "MODE" = Some m ->
  m <> "" ->
  ~ In m MainPy.mode_choices ->
  MainPy.main P None arg_port requests passes w
    = MainPy.main P (Some "web") arg_port requests passes w.
Proof.
  intros Hm Hne Hin.
  unfold MainPy.main, getenv_default, getenv, setenv, to_int.
  run_monad. simpl. rewrite Hm.
  destruct (py_int P _) as [z |]; simpl; [| reflexivity].
  destruct (MainPy.init P _) as [[[] | e] w1]; [| reflexivity].
  apply run_unknown_mode; assumption.
Qed.

Lemma unknown_mode_runs_web_server_witness :
  MainPy.main (Demo.platform Demo.finds_flat) None None [ReqLatest] 0
    (Demo.start Cases.unknown_mode)
  = MainPy.main (Demo.platform Demo.finds_flat) (Some "web") None [ReqLatest] 0
      (Demo.start Cases.unknown_mode).
Proof.
  apply (unknown_mode_runs_web_server (Demo.platform Demo.finds_flat)
           (Demo.start Cases.unknown_mode) "daemon").
  - reflexivity.
  - discriminate.
  - simpl. intros [H | [H | [H | [H | []]]]]; discriminate H.
Defined.

(** ** main.py: what the once mode prints *)

Lemma printed_app a b : printed (a ++ b)%list = (printed a ++ printed b)%list.
Proof.
  induction a as [| [t e] a IH]; [reflexivity |].
  destruct e; simpl; rewrite ?IH; reflexivity.
Qed.

Lemma printed_none evs :
  Forall (fun te : Z * Event => not_print (snd te)) evs -> printed evs = [].
Proof.
  induction 1 as [| [t e] rest H _ IH]; [reflexivity |].
  destruct e; simpl in *; try exact IH. contradiction.
Qed.

Lemma search_adds_no_print P : m_adds not_print (MainPy.search P).
Proof.
  unfold MainPy.search, MainPy.search_body, MainPy.search_failed, MainPy.save_results.
  adds_all.
Qed.

Lemma print_top_cons i apt rest w :
  MainPy.print_top i (apt :: rest) w =
  MainPy.print_top (S i) rest (with_trace (cons (clock w, EvPrint (PrApartment i apt))) w).
Proof. reflexivity. Qed.

(** [print_top] prints its apartments in order, numbered from [i]. *)
Lemma print_top_prints i apts w :
  fst (MainPy.print_top i apts w) = Return tt /\
  exists new,
    trace (snd (MainPy.print_top i apts w)) = (new ++ trace w)%list /\
    rev (printed new) = imap (fun k apt => PrApartment (i + k) apt) apts.
Proof.
  revert i w. induction apts as [| apt rest IH]; intros i w.
  - simpl. split; [reflexivity |]. exists []. split; reflexivity.
  - rewrite print_top_cons.
    destruct (IH (S i) (with_trace (cons (clock w, EvPrint (PrApartment i apt))) w))
      as [R [new [T Pr]]].
    split; [exact R |].
    exists (new ++ [(clock w, EvPrint (PrApartment i apt))])%list. split.
    + rewrite T. simpl. rewrite <- app_assoc. reflexivity.
    + rewrite printed_app, rev_app_distr. simpl. rewrite Pr.
      replace (i + 0)%nat with i by lia. f_equal.
      apply imap_ext. intros k x _. simpl. f_equal. lia.
Qed.

Lemma run_once_unfold P w :
  MainPy.run_once P w =
  match MainPy.search P (with_trace (cons (clock w, EvLog INFO "Running single search...")) w) with
  | (Return results, w1) =>
      match results with
      | [] => (Return tt, with_trace (cons (clock w1, EvPrint (PrFound 0))) w1)
      | _ =>
          MainPy.print_top 1 (take 5 results)
            (with_trace (cons (clock w1, EvPrint PrRule))
               (with_trace (cons (clock w1, EvPrint PrTopHeader))
                  (with_trace (cons (clock w1, EvPrint (PrFound (length results)))) w1)))
      end
  | (Raised e, w1) => (Raised e, w1)
  end.
Proof.
  unfold MainPy.run_once. unfold bind at 1. cbv [log emit modify]. cbv beta iota.
  unfold bind at 1.
  destruct (MainPy.search P _) as [[[| r rs] | e] w1]; reflexivity.
Qed.

(** X16: after a search that returns, [run_once] prints the number of
    results found and then, when there are any, a header and at most the
    first five results, in the order of the provider, numbered from 1;
    nothing else is printed, and [run_once] returns. *)
Theorem run_once_prints_top_five (P : Platform) (w : World) (results : list Listing) :
  fst (MainPy.search P
         (with_trace (cons (clock w, EvLog INFO "Running single search...")) w))
    = Return results ->
  fst (MainPy.run_once P w) = Return tt /\
  rev (printed (since w (snd (MainPy.run_once P w)))) = once_report results.
Proof.
  intros S. rewrite run_once_unfold.
  set (w0 := with_trace _ w) in *.
  pose proof (search_adds_no_print P w0) as [new0 [T0 F0]].
  destruct (MainPy.search P w0) as [[rs | e] w1]; simpl in S, T0; [| discriminate].
  injection S as ->.
  destruct results as [| r rs].
  - split; [reflexivity |].
    rewrite (since_app w _ ((clock w1, EvPrint (PrFound 0)) :: new0
                              ++ [(clock w, EvLog INFO "Running single search...")])%list).
    + simpl. rewrite printed_app, (printed_none _ F0). reflexivity.
    + simpl. rewrite T0. rewrite <- app_assoc. reflexivity.
  - set (w2 := with_trace _ (with_trace _ (with_trace _ w1))).
    destruct (print_top_prints 1 (take 5 (r :: rs)) w2) as [R [new [T Pr]]].
    split; [exact R |].
    rewrite (since_app w _
               (new ++ [(clock w1, EvPrint PrRule); (clock w1, EvPrint PrTopHeader);
                        (clock w1, EvPrint (PrFound (length (r :: rs))))]
                    ++ new0 ++ [(clock w, EvLog INFO "Running single search...")])%list).
    + rewrite !printed_app, (printed_none _ F0). simpl.
      rewrite rev_app_distr. simpl. rewrite Pr. reflexivity.
    + rewrite T. unfold w2. simpl. rewrite T0.
      repeat (rewrite <- app_assoc; simpl). reflexivity.
Qed.

Lemma run_once_prints_top_five_witness :
  rev (printed (since Demo.app_started
                  (snd (MainPy.run_once (Demo.platform Demo.finds_flat) Demo.app_started))))
    = [PrFound 1; PrTopHeader; PrRule; PrApartment 1 Demo.flat].
Proof.
  refine (proj2 (run_once_prints_top_five (Demo.platform Demo.finds_flat)
                   Demo.app_started [Demo.flat] _)).
  vm_compute. reflexivity.
Defined.

(** ** run.py: what a run can do *)

(** X17: [generate_html_report] produces no report: for every list of
    apartments it raises [KeyError] for the name [' font-family'], the
    body of the first CSS rule of its template, and changes nothing. *)
Theorem html_report_always_fails (P : Platform) (apartments : list Listing) (w : World) :
  RunPy.generate_html_report P apartments w
    = (Raised (Exn KeyError " font-family"), w).
Proof. apply generate_html_report_raises. Qed.

Lemma adds_weaken (Q Q' : Event -> Prop) w w' :
  (forall e, Q e -> Q' e) -> adds Q w w' -> adds Q' w w'.
Proof.
  intros H [new [E F]]. exists new. split; [exact E |].
  eapply Forall_impl; [exact F |]. intros [t e]. apply H.
Qed.








(** X19: the one-shot actions of [run.py] never complete normally: with
    [--action search] and with [--action generate-static] the process
    ends with an exception, that is with a non-zero status. *)
Theorem run_py_one_shot_fails (P : Platform) (cli : RunPy.Cli) (passes : nat) (w : World) :
  RunPy.cli_action cli = RunPy.ActSearch \/
  RunPy.cli_action cli = RunPy.ActGenerateStatic ->
  (exists e, fst (RunPy.main P cli passes w) = Raised e) /\
  exit_status (fst (RunPy.main P cli passes w)) = 1.
Proof.
  intros Ha.
  assert (R : exists e, fst (RunPy.main P cli passes w) = Raised e).
  { revert w. change (always_raises (RunPy.main P cli passes)).
    unfold RunPy.main.
    do 3 (apply always_raises_bind_r; intros ?).
    destruct Ha as [-> | ->];
      apply always_raises_bind; apply search_apartments_always_raises. }
  split; [exact R |]. destruct R as [e ->]. reflexivity.
Qed.

Lemma run_py_one_shot_fails_witness :
  exit_status
    (fst (RunPy.main (Demo.platform Demo.finds_flat)
            (Cases.cli RunPy.ActGenerateStatic None) 0 (Demo.start ∅))) = 1.
Proof.
  apply (run_py_one_shot_fails (Demo.platform Demo.finds_flat)
           (Cases.cli RunPy.ActGenerateStatic None) 0 (Demo.start ∅)).
  right. reflexivity.
Defined.

Lemma run_py_scheduler_loop_unfold P jobs n w :
  RunPy.scheduler_loop P jobs (S n) w =
  match repeat_m (Nat.min (jobs_due P (polls w)) jobs)
          (RunPy.search_apartments P true ;;; ret tt) (with_polls S w) with
  | (Return _, w1) =>
      match sleep P 60 w1 with
      | (Return _, w2) => RunPy.scheduler_loop P jobs n w2
      | (Raised e, w2) => (Raised e, w2)
      end
  | (Raised e, w1) => (Raised e, w1)
  end.
Proof.
  simpl. unfold run_pending.
  unfold bind at 1. unfold bind at 1. cbv [gets]. cbv beta iota.
  unfold bind at 1. cbv [modify]. cbv beta iota.
  destruct (repeat_m _ _ (with_polls S w)) as [[[] | e] w1]; [| reflexivity].
  unfold bind at 1.
  destruct (sleep P 60 w1) as [[[] | e] w2]; reflexivity.
Qed.

(** X20: the scheduler of [run.py] does not survive its first search:
    at the first poll at which one of its jobs is due, the exception of
    the search cycle leaves the loop, after one call of the provider at
    most; nothing in [run_scheduler] catches it. *)
Theorem run_py_scheduler_ends_with_first_job (P : Platform) (jobs passes : nat)
    (w : World) :
  (0 < jobs)%nat ->
  (0 < jobs_due P (polls w))%nat ->
  (exists e, fst (RunPy.scheduler_loop P jobs (S passes) w) = Raised e) /\
  (calls (snd (RunPy.scheduler_loop P jobs (S passes) w)) <= S (calls w))%nat.
Proof.
  intros Hj Hd. rewrite run_py_scheduler_loop_unfold.
  destruct (Nat.min (jobs_due P (polls w)) jobs) as [| k] eqn:E; [lia |].
  rewrite repeat_m_S.
  destruct (search_apartments_always_raises P true (with_polls S w)) as [e He].
  assert (C : (calls (snd (RunPy.search_apartments P true (with_polls S w)))
               <= S (calls w))%nat).
  { rewrite search_apartments_unfold.
    destruct (RunPy.load_search_params P _) as [[params | e0] w1] eqn:L.
    - pose proof (f_equal (fun r => calls (snd r)) L) as Lc. simpl in Lc.
      assert (K : calls w1 = calls w).
      { rewrite <- Lc. clear.
        assert (H : m_keeps calls (RunPy.load_search_params P)).
        { unfold RunPy.load_search_params, RunPy.getenv_float. keeps_all. }
        rewrite H. reflexivity. }
      assert (H : forall rs, m_keeps calls
                  (RunPy.persist_and_notify P (RunPy.generate_html_report P) true rs)).
      { intros rs. unfold RunPy.persist_and_notify, RunPy.generate_html_report.
        keeps_all. }
      unfold bind, fetch. unfold bind at 1. cbv [fetch_call bind emit modify gets ret].
      cbv beta iota.
      match goal with
      | |- context [fetch_return P ?n ?c ?w0] =>
          assert (F : calls (snd (fetch_return P n c w0)) = S (calls w1));
          [ assert (Hf : m_keeps calls (fetch_return P n c))
              by (unfold fetch_return; keeps_all);
            rewrite Hf; reflexivity
          | destruct (fetch_return P n c w0) as [[rs | e1] w3]; simpl in F |- * ]
      end.
      + rewrite H. lia.
      + lia.
    - pose proof (f_equal (fun r => calls (snd r)) L) as Lc. simpl in Lc.
      assert (H : m_keeps calls (RunPy.load_search_params P)).
      { unfold RunPy.load_search_params, RunPy.getenv_float. keeps_all. }
      rewrite H in Lc. simpl in Lc. simpl. lia. }
  unfold bind at 1. unfold bind at 2.
  destruct (RunPy.search_apartments P true (with_polls S w)) as [[rs | e'] w1];
    simpl in He, C; [discriminate |].
  simpl. split; [eauto | exact C].
Qed.

Lemma run_py_scheduler_ends_with_first_job_witness :
  exists e,
    fst (RunPy.scheduler_loop (Demo.platform Demo.finds_flat) 7 3 (Demo.start ∅))
      = Raised e.
Proof.
  apply (run_py_scheduler_ends_with_first_job (Demo.platform Demo.finds_flat) 7 2
           (Demo.start ∅)).
  - lia.
  - simpl. lia.
Defined.

(** X21: when the environment parses, the provider returns listings
    that can be serialised and the file system does not fail, the cycle
    of [run.py] saves the listings in its JSON file and then ends with
    the [KeyError] of the report instead of returning them. *)
Theorem cycle_saves_json_then_fails (P : Platform) (flag : bool) (w w1 : World)
    (params : RunPy.SearchParameters) (rs : list Listing) :
  RunPy.load_search_params P
    (with_trace (cons (clock w, EvLog INFO "Starting apartment search...")) w)
    = (Return params, w1) ->
  snd (provider P (calls w1) (RunPy.criteria_of_params params)) = Return rs ->
  forallb listing_serializable rs = true ->
  (forall k path, io_fault P k path = None) ->
  fst (RunPy.search_apartments P flag w) = Raised (Exn KeyError " font-family") /\
  exists ts,
    fs (snd (RunPy.search_apartments P flag w)) !! ("results/apartments_" ++ ts ++ ".json")
      = Some (FJson rs).
Proof.
  intros L Hp Hs Hio. rewrite search_apartments_unfold, L.
  unfold RunPy.persist_and_notify, makedirs, dump_json, io_op, timestamp.
  run_monad. simpl. rewrite Hp. simpl. rewrite !Hio. simpl. rewrite Hs. simpl.
  split; [reflexivity |]. eexists. apply lookup_insert_eq.
Qed.

Lemma cycle_saves_json_then_fails_witness :
  fst (RunPy.search_apartments (Demo.platform Demo.finds_flat) true (Demo.start ∅))
    = Raised (Exn KeyError " font-family").
Proof.
  assert (L : RunPy.load_search_params (Demo.platform Demo.finds_flat)
                (with_trace (cons (clock (Demo.start ∅),
                                   EvLog INFO "Starting apartment search..."))
                   (Demo.start ∅))
              = (Return Cases.default_params,
                 snd (RunPy.load_search_params (Demo.platform Demo.finds_flat)
                        (with_trace (cons (clock (Demo.start ∅),
                                           EvLog INFO "Starting apartment search..."))
                           (Demo.start ∅)))))
    by (vm_compute; reflexivity).
  assert (S : forallb listing_serializable [Demo.flat] = true)
    by (vm_compute; reflexivity).
  exact (proj1 (cycle_saves_json_then_fails (Demo.platform Demo.finds_flat) true
                  (Demo.start ∅) _ Cases.default_params [Demo.flat]
                  L eq_refl S (fun _ _ => eq_refl))).
Defined.

(** ** run.py: the scheduler and the command line *)

(** X22: with [SCHEDULE_INTERVAL] set to zero and the two hours
    readable, [run_scheduler] raises [ValueError] before it registers a
    job: no search is ever run. *)
Theorem zero_interval_stops_scheduler (P : Platform) (passes : nat) (w : World)
    (s : string) :
  env w !! "SCHEDULE_INTERVAL" = Some s ->
  py_int P s = Some 0 ->
  (forall s', env w !! "SCHEDULE_START_HOUR" = Some s' -> py_int P s' <> None) ->
  (forall s', env w !! "SCHEDULE_END_HOUR" = Some s' -> py_int P s' <> None) ->
  fst (RunPy.run_scheduler P passes w)
    = Raised (Exn ValueError "range() arg 3 must not be zero") /\
  calls (snd (RunPy.run_scheduler P passes w)) = calls w.
Proof.
  intros Hi Hz Hs He.
  unfold RunPy.run_scheduler, RunPy.getenv_int, getenv, to_int.
  run_monad. simpl. rewrite Hi, Hz. simpl.
  destruct (env w !! "SCHEDULE_START_HOUR") as [s1 |] eqn:E1; simpl.
  - destruct (py_int P s1) as [z1 |] eqn:Z1; [| exfalso; exact (Hs s1 eq_refl Z1)].
    simpl.
    destruct (env w !! "SCHEDULE_END_HOUR") as [s2 |] eqn:E2; simpl.
    + destruct (py_int P s2) as [z2 |] eqn:Z2; [| exfalso; exact (He s2 eq_refl Z2)].
      simpl. split; reflexivity.
    + split; reflexivity.
  - destruct (env w !! "SCHEDULE_END_HOUR") as [s2 |] eqn:E2; simpl.
    + destruct (py_int P s2) as [z2 |] eqn:Z2; [| exfalso; exact (He s2 eq_refl Z2)].
      simpl. split; reflexivity.
    + split; reflexivity.
Qed.

Lemma zero_interval_stops_scheduler_witness :
  fst (RunPy.run_scheduler (Demo.platform Demo.finds_flat) 5
         (Demo.start Cases.interval_zero))
    = Raised (Exn ValueError "range() arg 3 must not be zero").
Proof.
  refine (proj1 (zero_interval_stops_scheduler (Demo.platform Demo.finds_flat) 5
                   (Demo.start Cases.interval_zero) "0" _ _ _ _)).
  - reflexivity.
  - reflexivity.
  - intros s' H. discriminate H.
  - intros s' H. discriminate H.
Defined.

Lemma search_apartments_keeps_env P flag : m_keeps env (RunPy.search_apartments P flag).
Proof.
  unfold RunPy.search_apartments, RunPy.search_apartments_with,
    RunPy.persist_and_notify, RunPy.load_search_params, RunPy.getenv_float,
    RunPy.generate_html_report.
  keeps_all.
Qed.

Lemma repeat_m_keeps {B} (f : World -> B) n (m : M unit) :
  m_keeps f m -> m_keeps f (repeat_m n m).
Proof.
  intros H. induction n as [| n IH]; simpl; [apply m_keeps_ret |].
  apply m_keeps_bind; [exact H | intros _; exact IH].
Qed.

Lemma register_jobs_keeps {B} (f : World -> B) hours :
  m_keeps f (RunPy.register_jobs hours).
Proof.
  induction hours as [| h rest IH]; simpl; [apply m_keeps_ret |].
  apply m_keeps_bind; [| intros _; exact IH].
  unfold RunPy.register_job. keeps_all.
Qed.

Lemma run_py_scheduler_loop_keeps_env P jobs passes :
  m_keeps env (RunPy.scheduler_loop P jobs passes).
Proof.
  induction passes as [| n IH]; simpl; [apply m_keeps_ret |].
  apply m_keeps_bind; [| intros _].
  - unfold run_pending.
    apply m_keeps_bind; [keeps_all | intros k].
    apply m_keeps_bind; [keeps_all | intros _].
    apply repeat_m_keeps.
    apply m_keeps_bind; [apply search_apartments_keeps_env | intros ?; keeps_all].
  - apply m_keeps_bind; [keeps_all | intros _; exact IH].
Qed.

Ltac run_py_keeps_env :=
  repeat first
    [ apply search_apartments_keeps_env
    | apply run_py_scheduler_loop_keeps_env
    | apply register_jobs_keeps
    | keeps_step
    | adds_prims
    | progress unfold RunPy.run_scheduler, RunPy.getenv_int, RunPy.generate_html_report ].

(** X23: [--max-rent] reaches the search through the environment: a
    non-zero value is written to [MAX_RENT] as text before the action
    starts and is still there when [main] ends; the value 0 counts as no
    option and leaves [MAX_RENT] as it was.  Nothing else in a run
    changes this variable. *)
Theorem max_rent_option_goes_through_environment (P : Platform) (cli : RunPy.Cli)
    (passes : nat) (w : World) :
  env (snd (RunPy.main P cli passes w)) !! "MAX_RENT" =
  match RunPy.cli_max_rent cli with
  | Some f => if truthy (PyFloat f) then Some (py_str P (PyFloat f))
              else env w !! "MAX_RENT"
  | None => env w !! "MAX_RENT"
  end.
Proof.
  unfold RunPy.main.
  destruct (RunPy.cli_max_rent cli) as [f |]; [destruct (truthy (PyFloat f)) |];
    (destruct (RunPy.cli_min_rooms cli) as [g |]; [destruct (truthy (PyFloat g)) |]);
    (destruct (RunPy.cli_districts cli) as [[| a b] |]);
    unfold bind at 1; cbv [setenv modify ret]; cbv beta iota;
    unfold bind at 1; cbv beta iota;
    unfold bind at 1; cbv beta iota;
    (match goal with
     | |- env (snd (?X ?w3)) !! _ = _ =>
         assert (K : m_keeps env X) by (destruct (RunPy.cli_action cli); run_py_keeps_env);
         rewrite (K w3)
     end);
    simpl;
    rewrite ?lookup_insert_ne by discriminate;
    rewrite ?lookup_insert_eq; reflexivity.
Qed.

Example max_rent_zero_is_ignored :
  env (snd (RunPy.main (Demo.platform Demo.finds_flat)
              (Cases.cli RunPy.ActSearch (Some 0%float)) 0 (Demo.start ∅)))
    !! "MAX_RENT" = None.
Proof. vm_compute. reflexivity. Qed.

(** ** The web server: provider calls and handlers *)

Lemma entered_count_insert (ts : list Web.Thread) (i : nat) (t t' : Web.Thread) :
  ts !! i = Some t ->
  (entered_count (<[i := t']> ts) + (if entered t then 1 else 0)
   = entered_count ts + (if entered t' then 1 else 0))%nat.
Proof.
  unfold entered_count. revert i.
  induction ts as [| x ts IH]; intros i Hi; [destruct i; discriminate |].
  destruct i as [| i].
  - change (<[0%nat := t']> (x :: ts)) with (t' :: ts).
    injection Hi as ->. rewrite !filter_cons.
    repeat case_decide;
      destruct (entered t), (entered t'); simpl length; try congruence; lia.
  - change (<[S i := t']> (x :: ts)) with (x :: <[i := t']> ts).
    specialize (IH i Hi). rewrite !filter_cons.
    case_decide; simpl length; lia.
Qed.

Lemma entered_count_accept ts args :
  entered_count (ts ++ [Web.new_thread args]) = entered_count ts.
Proof.
  unfold entered_count. rewrite filter_app, length_app.
  rewrite filter_cons_False by (cbv; discriminate).
  rewrite filter_nil. simpl. lia.
Qed.

(** One statement of a handler changes the number of provider calls
    exactly as it changes whether the handler has called the provider. *)
Lemma thread_step_calls P t w :
  Web.finished t = false ->
  (calls (snd (Web.thread_step P t w)) + (if entered t then 1 else 0)
   = calls w + (if entered (fst (Web.thread_step P t w)) then 1 else 0))%nat.
Proof.
  intros F. unfold Web.thread_step, Web.finished, entered in *.
  destruct (Web.th_pc t) as [| r | r m | o r m | o m | o | o n c | o rs | r];
    simpl; try lia; try discriminate.
  pose proof (search_resume_keeps_calls P n c w) as K.
  destruct (Web.search_resume P n c w) as [[rs | e] w1]; simpl in *; lia.
Qed.

(** X24: in the threaded web server, whatever the interleaving, the
    provider is called exactly once for every handler of [/api/search]
    that has reached its search - never twice for one request, and
    never without one. *)
Theorem one_provider_call_per_handler (P : Platform) (s0 s : World * list Web.Thread) :
  Web.reachable P s0 s ->
  (calls (fst s) + entered_count (snd s0)
   = calls (fst s0) + entered_count (snd s))%nat.
Proof.
  induction 1 as [| s1 s2 R IH St]; [lia |].
  destruct St as [w ts args | w ts i t Hi F]; simpl in *.
  - rewrite entered_count_accept. exact IH.
  - pose proof (thread_step_calls P t w F) as C.
    pose proof (entered_count_insert ts i t (fst (Web.thread_step P t w)) Hi) as E.
    lia.
Qed.

Lemma one_provider_call_per_handler_witness :
  let P := Demo.platform Demo.finds_flat in
  let s := Web.play P
             ([Web.Accept ∅; Web.Accept ∅] ++ repeat (Web.Run 0) 8 ++ repeat (Web.Run 1) 6)
             (Demo.app_started, []) in
  (calls (fst s) + 0 = calls Demo.app_started + entered_count (snd s))%nat.
Proof.
  intros P s.
  apply (one_provider_call_per_handler P (Demo.app_started, []) s).
  apply play_reachable. constructor.
Defined.
